(** * FamaFrench3Factors: the quantitative pipeline of the Streamlit playground

    The development embeds [src/FamaFrench3Factors.py]: the four preset
    callbacks that write the session state, [generate_ff_data],
    [fama_french_model], [run_regression] and the top-level pipeline
    (lines 159-168).

    Python floats are IEEE binary64 numbers; they are modelled by the
    executable specification of binary64 arithmetic of the standard
    library ([spec_float], round to nearest even).  The three libraries
    the script calls into are interfaces: numpy's legacy generator
    ([BitGenerator]), pandas' month-end index ([DatetimeIndex]) and the
    numerical kernel behind statsmodels' fit ([LeastSquares]). *)

From Stdlib Require Import ZArith List Bool Lia SpecFloat.
From stdpp Require Import gmap strings.
Import ListNotations.

Local Open Scope Z_scope.

(** ** Binary64 floats *)

Module F64.

Definition prec : Z := 53.
Definition emax : Z := 1024.

Definition float : Type := spec_float.

Definition add : float -> float -> float := SFadd prec emax.
Definition sub : float -> float -> float := SFsub prec emax.
Definition mul : float -> float -> float := SFmul prec emax.
Definition div : float -> float -> float := SFdiv prec emax.
Definition sqrt : float -> float := SFsqrt prec emax.
Definition opp : float -> float := SFopp.
Definition eqb : float -> float -> bool := SFeqb.
Definition ltb : float -> float -> bool := SFltb.

(** A Python [int] used where a float is expected. *)
Definition of_Z (n : Z) : float := binary_normalize prec emax n 0 false.

(** The float a decimal literal [n/d] (d a power of ten) denotes: Python
    rounds the literal correctly, and so does the division of the two
    exactly representable integers. *)
Definition dec (n : Z) (d : positive) : float := div (of_Z n) (of_Z (Zpos d)).

Definition pzero : float := S754_zero false.
Definition nzero : float := S754_zero true.

Definition is_nan (x : float) : bool :=
  match x with S754_nan => true | _ => false end.

(** [np.isfinite]. *)
Definition is_finite (x : float) : bool :=
  match x with S754_zero _ | S754_finite _ _ _ => true | _ => false end.

(** [np.signbit], on the values that carry a sign. *)
Definition signbit (x : float) : bool :=
  match x with
  | S754_zero s | S754_infinity s | S754_finite s _ _ => s
  | S754_nan => false
  end.

(** Equality of the real numbers two floats denote, kept apart from the
    sign of zero: [x] and [y] are the same datum, or [x] is [-0.0] and [y]
    is [0.0]. *)
Definition same_real (y x : float) : Prop :=
  y = x \/ (x = nzero /\ y = pzero).

End F64.

Abbreviation float := F64.float.

Declare Scope f64_scope.
Delimit Scope f64_scope with f64.
Infix "+" := F64.add : f64_scope.
Infix "-" := F64.sub : f64_scope.
Infix "*" := F64.mul : f64_scope.
Infix "/" := F64.div : f64_scope.

(** ** Exceptions and results *)

(** The Python exceptions the pipeline can raise.  In the words of the
    specification a [ValueError] on an argument is an invalid argument and
    a [ValueError] on operand shapes is a shape mismatch; nothing in the
    script raises on a rank deficient design.  [LinAlgError] is numpy's,
    for a decomposition that does not converge. *)
Inductive exn : Type :=
| ValueError
| KeyError
| MissingDataError
| LinAlgError.

Inductive result (A : Type) : Type :=
| Ok (a : A)
| Raise (e : exn).
Arguments Ok {A} a.
Arguments Raise {A} e.

Definition is_ok {A} (r : result A) : bool :=
  match r with Ok _ => true | Raise _ => false end.

Definition result_map {A B} (f : A -> B) (r : result A) : result B :=
  match r with Ok a => Ok (f a) | Raise e => Raise e end.

(** ** The session state and the preset callbacks (lines 17-56) *)

(** [st.session_state], the dictionary the sliders and the callbacks share. *)
Abbreviation session_state := (gmap string float).

Definition reset_parameters (st : session_state) : session_state :=
  <["noise" := F64.dec 2 100]>
  (<["risk_free" := F64.dec 2 100]>
  (<["alpha" := F64.dec 5 1000]>
  (<["hml_beta" := F64.opp (F64.dec 3 10)]>
  (<["smb_beta" := F64.dec 2 10]>
  (<["market_beta" := F64.dec 10 10]> st))))).

Definition set_lab1_parameters (st : session_state) : session_state :=
  <["noise" := F64.dec 1 100]>
  (<["risk_free" := F64.dec 2 100]>
  (<["alpha" := F64.dec 5 1000]>
  (<["hml_beta" := F64.dec 0 10]>
  (<["smb_beta" := F64.dec 0 10]>
  (<["market_beta" := F64.dec 10 10]> st))))).

Definition set_lab2_parameters (st : session_state) : session_state :=
  <["noise" := F64.dec 3 100]>
  (<["risk_free" := F64.dec 3 100]>
  (<["alpha" := F64.opp (F64.dec 3 1000)]>
  (<["hml_beta" := F64.dec 11 10]>
  (<["smb_beta" := F64.dec 10 10]>
  (<["market_beta" := F64.dec 12 10]> st))))).

Definition set_lab3_parameters (st : session_state) : session_state :=
  <["noise" := F64.dec 5 100]>
  (<["risk_free" := F64.dec 1 100]>
  (<["alpha" := F64.dec 10 1000]>
  (<["hml_beta" := F64.opp (F64.dec 12 10)]>
  (<["smb_beta" := F64.opp (F64.dec 7 10)]>
  (<["market_beta" := F64.dec 8 10]> st))))).

(** The six scalars of a parameter set, as the session state holds them. *)
Record ParameterSet : Type := {
  ps_alpha : float;
  ps_beta_mkt : float;
  ps_beta_smb : float;
  ps_beta_hml : float;
  ps_risk_free : float;
  ps_noise : float
}.

Definition parameter_set (st : session_state) : option ParameterSet :=
  a ← st !! "alpha";
  bm ← st !! "market_beta";
  bs ← st !! "smb_beta";
  bh ← st !! "hml_beta";
  rf ← st !! "risk_free";
  n ← st !! "noise";
  Some {| ps_alpha := a; ps_beta_mkt := bm; ps_beta_smb := bs;
          ps_beta_hml := bh; ps_risk_free := rf; ps_noise := n |}.

(** The keys a preset writes. *)
Definition preset_keys : list string :=
  ["market_beta"; "smb_beta"; "hml_beta"; "alpha"; "risk_free"; "noise"].


(** ** Computations over the process-wide generator *)

(** A computation reads and writes one piece of global state (numpy's
    generator) and ends in a value or in an exception; an exception leaves
    the writes made before it in place. *)
Definition StateExn (S A : Type) : Type := S -> result A * S.

Definition ret {S A} (a : A) : StateExn S A := fun s => (Ok a, s).

Definition lift {S A} (r : result A) : StateExn S A := fun s => (r, s).

Definition bind {S A B} (m : StateExn S A) (k : A -> StateExn S B) : StateExn S B :=
  fun s =>
    match m s with
    | (Ok a, s') => k a s'
    | (Raise e, s') => (Raise e, s')
    end.

Notation "x <- m ;; k" := (bind m (fun x => k))
  (at level 100, m at next level, right associativity).

(** ** The libraries the script calls *)

(** [numpy.random]'s legacy generator (the global [RandomState]):
    [legacy_seeding n] is the state [np.random.seed(n)] installs, whatever
    the state before, and [legacy_gauss] draws one standard normal value
    and steps the state. *)
Class BitGenerator : Type := {
  rng_state : Type;
  legacy_seeding : Z -> rng_state;
  legacy_gauss : rng_state -> float * rng_state
}.

(** [pandas] timestamps: [date_range_month_end t n] is
    [pd.date_range(end=t, periods=n, freq='ME')]. *)
Class DatetimeIndex : Type := {
  Timestamp : Type;
  Timestamp_eq_dec :: EqDecision Timestamp;
  date_range_month_end : Timestamp -> Z -> list Timestamp
}.

(** What the presentation layer reads off a fitted model. *)
Record RegressionResults : Type := {
  params : list float;
  bse : list float;
  tvalues : list float;
  pvalues : list float;
  rsquared : float;
  fittedvalues : list float
}.

(** The numerical kernel of [OLS.fit()] (method ['pinv']): from the
    dependent values and the columns of the design matrix, the
    pseudo-inverse solution and its statistics. *)
Class LeastSquares : Type := {
  pinv_fit : list float -> list (list float) -> RegressionResults
}.

(** Every draw is a finite number (the polar method never returns an
    infinity or a NaN). *)
Definition gauss_finite (G : BitGenerator) : Prop :=
  forall s : rng_state, F64.is_finite (fst (legacy_gauss s)) = true.

(** The index [date_range] builds has [periods] entries (none when
    [periods] is not positive). *)
Definition date_range_periods (D : DatetimeIndex) : Prop :=
  forall (t : Timestamp) (n : Z), length (date_range_month_end t n) = Z.to_nat n.

(** ** Reference instances, used to run the model on concrete inputs *)

(** A generator that cycles through the draws -1.0, -0.5, 0.0, 0.5, 1.0. *)
Definition cyclic_generator : BitGenerator := {|
  rng_state := Z;
  legacy_seeding := fun n => n;
  legacy_gauss := fun s => (F64.div (F64.of_Z (s mod 5 - 2)) (F64.of_Z 2), s + 1)
|}.

(** Timestamps as month numbers. *)
Definition month_numbers : DatetimeIndex := {|
  Timestamp := Z;
  Timestamp_eq_dec := Z.eq_dec;
  date_range_month_end := fun t n =>
    map (fun k => t - n + 1 + Z.of_nat k) (seq 0 (Z.to_nat n))
|}.

(** A kernel that reports zero coefficients. *)
Definition null_kernel : LeastSquares := {|
  pinv_fit := fun y X =>
    {| params := map (fun _ => F64.pzero) X;
       bse := map (fun _ => F64.pzero) X;
       tvalues := map (fun _ => F64.pzero) X;
       pvalues := map (fun _ => F64.pzero) X;
       rsquared := F64.pzero;
       fittedvalues := map (fun _ => F64.pzero) y |}
|}.

(** ** The model *)

Section Model.

Context {G : BitGenerator} {D : DatetimeIndex} {L : LeastSquares}.

Local Open Scope f64_scope.

Definition M (A : Type) : Type := StateExn rng_state A.

(** *** numpy *)

(** [np.random.seed(n)]. *)
Definition seed (n : Z) : M unit := fun _ => (Ok tt, legacy_seeding n).

(** [n] values [loc + scale * gauss], drawn one after the other. *)
Fixpoint legacy_normal_fill (n : nat) (loc scale : float) (s : rng_state)
  : list float * rng_state :=
  match n with
  | O => ([], s)
  | S k =>
      let '(g, s1) := legacy_gauss s in
      let '(rest, s2) := legacy_normal_fill k loc scale s1 in
      ((loc + scale * g) :: rest, s2)
  end.

(** The argument check of [normal]: a scale that is not a NaN and has its
    sign bit set is refused. *)
Definition scale_ok (scale : float) : bool :=
  negb (negb (F64.is_nan scale) && F64.signbit scale).

(** [np.random.normal(loc, scale, size)] with scalar [loc] and [scale]:
    [ValueError] on a negative scale or a negative size. *)
Definition random_normal (loc scale : float) (size : Z) : M (list float) :=
  fun s =>
    if negb (scale_ok scale) then (Raise ValueError, s)
    else if size <? 0 then (Raise ValueError, s)
    else let '(xs, s') := legacy_normal_fill (Z.to_nat size) loc scale s in
         (Ok xs, s').

(** [np.max] and [np.min] of a non-empty array; a NaN propagates. *)
Definition maximum (x y : float) : float :=
  if F64.is_nan x || F64.is_nan y then S754_nan
  else if F64.ltb x y then y else x.

Definition minimum (x y : float) : float :=
  if F64.is_nan x || F64.is_nan y then S754_nan
  else if F64.ltb y x then y else x.

Definition np_max (x0 : float) (xs : list float) : float := fold_left maximum xs x0.
Definition np_min (x0 : float) (xs : list float) : float := fold_left minimum xs x0.

(** *** pandas *)

(** One observation: the three factor returns of a period. *)
Definition Observation : Type := float * float * float.

(** A frame with the columns ['Mkt-RF'], ['SMB'] and ['HML']: its rows, each
    under its index label. *)
Definition DataFrame : Type := list (Timestamp * Observation).

(** A series: its values, each under its index label. *)
Definition Series : Type := list (Timestamp * float).

Definition values (s : Series) : list float := map snd s.
Definition index (s : Series) : list Timestamp := map fst s.

(** [len(factors)]. *)
Definition len (df : DataFrame) : Z := Z.of_nat (length df).

(** [pd.DataFrame({'Mkt-RF': mkt, 'SMB': smb, 'HML': hml}, index=dates)]:
    the arrays and the index must have one length. *)
Definition DataFrame_of_columns (dates : list Timestamp) (mkt smb hml : list float)
  : result DataFrame :=
  if decide (length mkt = length dates /\ length smb = length dates
             /\ length hml = length dates)
  then Ok (zip dates (zip (zip mkt smb) hml))
  else Raise ValueError.

Definition col_Mkt_RF (df : DataFrame) : Series := map (fun '(t, (m, _, _)) => (t, m)) df.
Definition col_SMB (df : DataFrame) : Series := map (fun '(t, (_, s, _)) => (t, s)) df.
Definition col_HML (df : DataFrame) : Series := map (fun '(t, (_, _, h)) => (t, h)) df.

(** [c * s] and [c + s] and [s - c] for a scalar [c]. *)
Definition scalar_mul (c : float) (s : Series) : Series := map (fun '(t, x) => (t, c * x)) s.
Definition scalar_add (c : float) (s : Series) : Series := map (fun '(t, x) => (t, c + x)) s.
Definition sub_scalar (s : Series) (c : float) : Series := map (fun '(t, x) => (t, x - c)) s.

(** [a + b] for two series over one index (columns of one frame): the
    alignment on labels is the sum position by position. *)
Definition series_add (a b : Series) : Series :=
  zip_with (fun '(t, x) '(_, y) => (t, x + y)) a b.

(** [a + arr] for a series and an array: position by position, and a
    [ValueError] when the lengths differ. *)
Definition series_add_array (a : Series) (arr : list float) : result Series :=
  if decide (length arr = length a)
  then Ok (zip_with (fun '(t, x) y => (t, x + y)) a arr)
  else Raise ValueError.

(** *** Core model (lines 64-100) *)

(** The dictionary [params] of line 160. *)
Record Params : Type := {
  beta_mkt : float;
  beta_smb : float;
  beta_hml : float;
  alpha : float;
  noise : float
}.

(** [today] is the reading of the clock, [pd.Timestamp.today()]. *)
Definition generate_ff_data (today : Timestamp) (months : Z) : M DataFrame :=
  _ <- seed 42 ;;
  let dates := date_range_month_end today months in
  mkt <- random_normal (F64.dec 5 100 / F64.of_Z 12)
                       (F64.dec 15 100 / F64.sqrt (F64.of_Z 12)) months ;;
  smb <- random_normal (F64.dec 3 100 / F64.of_Z 12)
                       (F64.dec 10 100 / F64.sqrt (F64.of_Z 12)) months ;;
  hml <- random_normal (F64.dec 4 100 / F64.of_Z 12)
                       (F64.dec 12 100 / F64.sqrt (F64.of_Z 12)) months ;;
  lift (DataFrame_of_columns dates mkt smb hml).

(** The part of the returns that does not depend on the generator. *)
Definition systematic (params : Params) (factors : DataFrame) : Series :=
  series_add
    (series_add
       (scalar_add (alpha params) (scalar_mul (beta_mkt params) (col_Mkt_RF factors)))
       (scalar_mul (beta_smb params) (col_SMB factors)))
    (scalar_mul (beta_hml params) (col_HML factors)).

(** The systematic return of one period:
    [alpha + beta_mkt * mkt + beta_smb * smb + beta_hml * hml], summed from
    the left as Python does. *)
Definition model_value (params : Params) (o : Observation) : float :=
  let '(m, s, h) := o in
  alpha params + beta_mkt params * m + beta_smb params * s + beta_hml params * h.

Definition fama_french_model (params : Params) (factors : DataFrame) : M Series :=
  let partial := systematic params factors in
  draw <- random_normal (F64.of_Z 0) (noise params) (len factors) ;;
  lift (series_add_array partial draw).

(** The three columns [generate_ff_data] draws after it has seeded the
    generator, row by row, and the state the draws leave. *)
Definition seeded_observations (months : Z) : list Observation * rng_state :=
  let n := Z.to_nat months in
  let '(mkt, s1) := legacy_normal_fill n (F64.dec 5 100 / F64.of_Z 12)
                      (F64.dec 15 100 / F64.sqrt (F64.of_Z 12)) (legacy_seeding 42) in
  let '(smb, s2) := legacy_normal_fill n (F64.dec 3 100 / F64.of_Z 12)
                      (F64.dec 10 100 / F64.sqrt (F64.of_Z 12)) s1 in
  let '(hml, s3) := legacy_normal_fill n (F64.dec 4 100 / F64.of_Z 12)
                      (F64.dec 12 100 / F64.sqrt (F64.of_Z 12)) s2 in
  (zip (zip mkt smb) hml, s3).

(** Every factor return of the frame is a finite number. *)
Definition finite_factors (factors : DataFrame) : Prop :=
  Forall (fun row : Timestamp * Observation =>
            let '(_, (m, s, h)) := row in
            F64.is_finite m = true /\ F64.is_finite s = true /\ F64.is_finite h = true)
         factors.

(** *** statsmodels *)

(** A design matrix: its index and its named columns. *)
Record Design : Type := {
  x_index : list Timestamp;
  x_columns : list (string * list float)
}.

(** A column that holds one value that is not zero ([add_trend]'s test:
    [np.ptp(s) == 0.0 and np.any(s != 0.0)], false when it raises). *)
Definition is_nonzero_const (col : list float) : bool :=
  match col with
  | [] => false
  | x :: xs =>
      F64.eqb (np_max x xs - np_min x xs) F64.pzero
      && existsb (fun v => negb (F64.eqb v F64.pzero)) col
  end.

(** [sm.add_constant(factors[['Mkt-RF', 'SMB', 'HML']])]: a column of ones
    named ['const'] goes first, unless a column already is a constant
    ([has_constant='skip']). *)
Definition add_constant (factors : DataFrame) : Design :=
  let cols := [("Mkt-RF"%string, values (col_Mkt_RF factors));
               ("SMB"%string, values (col_SMB factors));
               ("HML"%string, values (col_HML factors))] in
  {| x_index := map fst factors;
     x_columns :=
       if existsb (fun c => is_nonzero_const (snd c)) cols then cols
       else ("const"%string, map (fun _ => F64.of_Z 1) factors) :: cols |}.

Definition column_max_finite (col : list float) : bool :=
  match col with
  | [] => false
  | x :: xs => F64.is_finite (np_max x xs)
  end.

(** Every entry of the design is a finite number. *)
Definition design_finite (X : Design) : bool :=
  forallb (fun c => forallb F64.is_finite (snd c)) (x_columns X).

(** [sm.OLS(y, X).fit()]: the model refuses a design without rows
    ([ValueError], from the maximum of an empty column), a column whose
    maximum is not finite ([MissingDataError]) and an index that is not
    the one of [y] ([ValueError]).  The fit goes through the
    pseudo-inverse and checks no rank; its decomposition does not
    converge on an entry that is not finite and has passed the test on
    the maxima, a [-inf] ([LinAlgError]). *)
Definition OLS_fit (y : Series) (X : Design) : result RegressionResults :=
  if decide (x_index X = []) then Raise ValueError
  else if negb (forallb (fun c => column_max_finite (snd c)) (x_columns X))
  then Raise MissingDataError
  else if decide (index y = x_index X)
  then if design_finite X
       then Ok (pinv_fit (values y) (map snd (x_columns X)))
       else Raise LinAlgError
  else Raise ValueError.

Definition run_regression (stock_returns : Series) (factors : DataFrame) (rf : float)
  : result RegressionResults :=
  let y := sub_scalar stock_returns rf in
  let X := add_constant factors in
  OLS_fit y X.

(** *** The pipeline of a page run (lines 159-168) *)

Definition getitem (st : session_state) (key : string) : result float :=
  match st !! key with
  | Some v => Ok v
  | None => Raise KeyError
  end.

Definition read_params (st : session_state) : result Params :=
  match getitem st "market_beta", getitem st "smb_beta", getitem st "hml_beta",
        getitem st "alpha", getitem st "noise" with
  | Ok bm, Ok bs, Ok bh, Ok a, Ok n =>
      Ok {| beta_mkt := bm; beta_smb := bs; beta_hml := bh; alpha := a; noise := n |}
  | _, _, _, _, _ => Raise KeyError
  end.

(** Lines 159-167: the factors and the returns simulated on them. *)
Definition simulated_returns (st : session_state) (today : Timestamp) : M Series :=
  factors <- generate_ff_data today 60 ;;
  params <- lift (read_params st) ;;
  fama_french_model params factors.

Definition pipeline (st : session_state) (today : Timestamp)
  : M (Series * RegressionResults) :=
  factors <- generate_ff_data today 60 ;;
  params <- lift (read_params st) ;;
  stock_returns <- fama_french_model params factors ;;
  rf <- lift (getitem st "risk_free") ;;
  model <- lift (run_regression stock_returns factors rf) ;;
  ret (stock_returns, model).

(** What a page run shows of its outcome: the simulated returns, without
    their date labels, and the fitted model. *)
Definition observable (o : Series * RegressionResults) : list float * RegressionResults :=
  (values (fst o), snd o).

End Model.

(** ** Sample inputs *)

(** The Default preset as [params], and the same with the noise set to 0. *)
Definition default_params : Params := {|
  beta_mkt := F64.dec 10 10;
  beta_smb := F64.dec 2 10;
  beta_hml := F64.opp (F64.dec 3 10);
  alpha := F64.dec 5 1000;
  noise := F64.dec 2 100
|}.

Definition noise_free_default : Params := {|
  beta_mkt := F64.dec 10 10;
  beta_smb := F64.dec 2 10;
  beta_hml := F64.opp (F64.dec 3 10);
  alpha := F64.dec 5 1000;
  noise := F64.pzero
|}.

(** Three months of factor returns, and three returns over the same months. *)
Definition sample_frame : @DataFrame month_numbers :=
  [(1, (F64.dec 1 100, F64.opp (F64.dec 2 100), F64.dec 3 100));
   (2, (F64.opp (F64.dec 4 100), F64.dec 1 100, F64.pzero));
   (3, (F64.dec 2 100, F64.dec 2 100, F64.opp (F64.dec 1 100)))].

Definition sample_returns : @Series month_numbers :=
  [(1, F64.dec 3 100); (2, F64.opp (F64.dec 1 100)); (3, F64.dec 2 100)].

(** [n] periods in which the three factors are zero. *)
Definition zero_frame (n : nat) : @DataFrame month_numbers :=
  map (fun k => (Z.of_nat k, (F64.pzero, F64.pzero, F64.pzero))) (seq 0 n).

(** ** The sidebar sliders (lines 126-133) *)

(** A slider of the sidebar: its session-state key, its bounds, the value
    it starts from and its step when the call gives one. *)
Record Slider : Type := {
  sl_key : string;
  sl_min : float;
  sl_max : float;
  sl_value : float;
  sl_step : option float
}.

Definition sliders : list Slider := [
  {| sl_key := "market_beta"; sl_min := F64.opp (F64.dec 5 10); sl_max := F64.dec 20 10;
     sl_value := F64.dec 10 10; sl_step := None |};
  {| sl_key := "smb_beta"; sl_min := F64.opp (F64.dec 10 10); sl_max := F64.dec 10 10;
     sl_value := F64.dec 2 10; sl_step := None |};
  {| sl_key := "hml_beta"; sl_min := F64.opp (F64.dec 10 10); sl_max := F64.dec 10 10;
     sl_value := F64.opp (F64.dec 3 10); sl_step := None |};
  {| sl_key := "alpha"; sl_min := F64.opp (F64.dec 2 100); sl_max := F64.dec 2 100;
     sl_value := F64.dec 5 1000; sl_step := Some (F64.dec 1 1000) |};
  {| sl_key := "risk_free"; sl_min := F64.dec 0 10; sl_max := F64.dec 5 100;
     sl_value := F64.dec 2 100; sl_step := Some (F64.dec 1 1000) |};
  {| sl_key := "noise"; sl_min := F64.dec 0 10; sl_max := F64.dec 5 100;
     sl_value := F64.dec 2 100; sl_step := None |}
].

(** [min_value <= v <= max_value], as floats compare. *)
Definition in_range (sl : Slider) (v : float) : bool :=
  SFleb (sl_min sl) v && SFleb v (sl_max sl).

(** The keys whose value in the session state lies outside the bounds of
    their slider. *)
Definition out_of_range (st : session_state) : list string :=
  map sl_key
    (List.filter (fun sl => match st !! sl_key sl with
                            | Some v => negb (in_range sl v)
                            | None => false
                            end) sliders).

(** The session state in which every slider holds its starting value. *)
Definition slider_defaults : session_state :=
  foldr (fun sl st => <[sl_key sl := sl_value sl]> st) ∅ sliders.

(** The four callbacks of the buttons. *)
Definition presets : list (session_state -> session_state) :=
  [reset_parameters; set_lab1_parameters; set_lab2_parameters; set_lab3_parameters].


(** ** The stream of the generator *)

Section Stream.

Context {G : BitGenerator}.

(** The next [n] standard normal draws, and the state they leave. *)
Fixpoint gauss_draws (n : nat) (s : rng_state) : list float * rng_state :=
  match n with
  | O => ([], s)
  | S k =>
      let '(g, s1) := legacy_gauss s in
      let '(rest, s2) := gauss_draws k s1 in
      (g :: rest, s2)
  end.

End Stream.

(** [loc + scale * g], the value [normal] makes of a standard draw. *)
Definition scaled (loc scale g : float) : float := F64.add loc (F64.mul scale g).

(** The monthly factor returns [generate_ff_data] makes of a draw. *)
Definition mkt_of_draw : float -> float :=
  scaled (F64.div (F64.dec 5 100) (F64.of_Z 12))
         (F64.div (F64.dec 15 100) (F64.sqrt (F64.of_Z 12))).

Definition smb_of_draw : float -> float :=
  scaled (F64.div (F64.dec 3 100) (F64.of_Z 12))
         (F64.div (F64.dec 10 100) (F64.sqrt (F64.of_Z 12))).

Definition hml_of_draw : float -> float :=
  scaled (F64.div (F64.dec 4 100) (F64.of_Z 12))
         (F64.div (F64.dec 12 100) (F64.sqrt (F64.of_Z 12))).

(** ** The sidebar before the page run (lines 121-133, then 159-167) *)

(** What a script run comes to: a slider refuses the value the session
    state holds under its key (an exception of the widget, which ends the
    run there), or the run reaches the code after the sidebar. *)
Inductive page_outcome (A : Type) : Type :=
| SliderRefused (key : string)
| Ran (r : result A).
Arguments SliderRefused {A} key.
Arguments Ran {A} r.

(** The six sliders, in order: the first one whose key holds a value
    outside its bounds raises; a slider whose key is absent installs its
    starting value, and one whose key is present keeps the value. *)
Definition sidebar (st : session_state) : string + session_state :=
  match out_of_range st with
  | key :: _ => inl key
  | [] => inr (st ∪ slider_defaults)
  end.

(** A script run down to the simulated returns. *)
Definition page_simulation {G : BitGenerator} {D : DatetimeIndex}
    (st : session_state) (today : Timestamp) (s : rng_state)
  : page_outcome Series * rng_state :=
  match sidebar st with
  | inl key => (SliderRefused key, s)
  | inr st' => let '(r, s') := simulated_returns st' today s in (Ran r, s')
  end.

(** ** Further sample inputs *)

(** The Default preset with a noise of -0.0, of -0.01 and of 1e-20. *)
Definition negative_zero_noise : Params := {|
  beta_mkt := F64.dec 10 10;
  beta_smb := F64.dec 2 10;
  beta_hml := F64.opp (F64.dec 3 10);
  alpha := F64.dec 5 1000;
  noise := F64.opp (F64.dec 0 10)
|}.

Definition negative_noise : Params := {|
  beta_mkt := F64.dec 10 10;
  beta_smb := F64.dec 2 10;
  beta_hml := F64.opp (F64.dec 3 10);
  alpha := F64.dec 5 1000;
  noise := F64.opp (F64.dec 1 100)
|}.

Definition tiny_noise : Params := {|
  beta_mkt := F64.dec 10 10;
  beta_smb := F64.dec 2 10;
  beta_hml := F64.opp (F64.dec 3 10);
  alpha := F64.dec 5 1000;
  noise := F64.dec 1 100000000000000000000
|}.

(** * Properties *)

(** ** Floats *)

Lemma add_pzero_r (x : float) : x <> F64.nzero -> F64.add x F64.pzero = x.
Proof.
  destruct x as [[]|[]| |[] m e]; intros Hx; try reflexivity.
  now elim Hx.
Qed.

Lemma add_pzero_same_real (x : float) : F64.same_real (F64.add x F64.pzero) x.
Proof.
  destruct x as [[]|[]| |[] m e]; try (left; reflexivity).
  right; split; reflexivity.
Qed.

(** A draw scaled by a zero deviation and shifted by [0.0] is [0.0]. *)
Lemma add_pzero_mul_pzero (g : float) :
  F64.is_finite g = true ->
  F64.add (F64.of_Z 0) (F64.mul F64.pzero g) = F64.pzero.
Proof.
  destruct g as [[]|[]| |[] m e]; intros Hg; try discriminate Hg; reflexivity.
Qed.

Lemma maximum_finite (x y : float) :
  F64.is_finite x = true -> F64.is_finite y = true ->
  F64.is_finite (maximum x y) = true.
Proof.
  intros Hx Hy. unfold maximum.
  destruct x, y; try discriminate; simpl;
    repeat match goal with |- context [if ?b then _ else _] => destruct b end;
    reflexivity.
Qed.

Lemma np_max_finite (xs : list float) (x : float) :
  F64.is_finite x = true -> Forall (fun v => F64.is_finite v = true) xs ->
  F64.is_finite (np_max x xs) = true.
Proof.
  revert x. induction xs as [|y ys IH]; intros x Hx Hxs; [exact Hx|].
  inversion Hxs; subst. unfold np_max; simpl.
  apply IH; [by apply maximum_finite | done].
Qed.

(** ** The presets *)

(** X2: a preset writes its six keys and nothing else: every other key of
    the session state keeps the value, or the absence, it had. *)
Lemma preset_other_keys (st : session_state) (k : string) :
  k ∉ preset_keys ->
  reset_parameters st !! k = st !! k
  /\ set_lab1_parameters st !! k = st !! k
  /\ set_lab2_parameters st !! k = st !! k
  /\ set_lab3_parameters st !! k = st !! k.
Proof.
  intros Hk.
  assert (Hne : Forall (fun key => key <> k) preset_keys).
  { apply Forall_forall. intros key Hin ->. apply Hk. by apply list_elem_of_In. }
  unfold preset_keys in Hne.
  repeat match goal with H : Forall _ (_ :: _) |- _ => inversion H; clear H; subst end.
  unfold reset_parameters, set_lab1_parameters, set_lab2_parameters, set_lab3_parameters.
  repeat split; by rewrite !lookup_insert_ne.
Qed.

(** C9: the four preset callbacks leave in the session state exactly the
    parameter sets of the table, whatever the state held before: Default
    (0.005, 1.0, 0.2, -0.3, 0.02, 0.02), Lab 1 (0.005, 1.0, 0.0, 0.0, 0.02,
    0.01), Lab 2 (-0.003, 1.2, 1.0, 1.1, 0.03, 0.03) and Lab 3 (0.010, 0.8,
    -0.7, -1.2, 0.01, 0.05), in the order alpha, beta_mkt, beta_smb,
    beta_hml, risk_free, noise. *)
Theorem presets_table (st : session_state) :
  parameter_set (reset_parameters st)
  = Some {| ps_alpha := F64.dec 5 1000; ps_beta_mkt := F64.of_Z 1;
            ps_beta_smb := F64.dec 2 10; ps_beta_hml := F64.opp (F64.dec 3 10);
            ps_risk_free := F64.dec 2 100; ps_noise := F64.dec 2 100 |}
  /\ parameter_set (set_lab1_parameters st)
  = Some {| ps_alpha := F64.dec 5 1000; ps_beta_mkt := F64.of_Z 1;
            ps_beta_smb := F64.pzero; ps_beta_hml := F64.pzero;
            ps_risk_free := F64.dec 2 100; ps_noise := F64.dec 1 100 |}
  /\ parameter_set (set_lab2_parameters st)
  = Some {| ps_alpha := F64.opp (F64.dec 3 1000); ps_beta_mkt := F64.dec 12 10;
            ps_beta_smb := F64.of_Z 1; ps_beta_hml := F64.dec 11 10;
            ps_risk_free := F64.dec 3 100; ps_noise := F64.dec 3 100 |}
  /\ parameter_set (set_lab3_parameters st)
  = Some {| ps_alpha := F64.dec 1 100; ps_beta_mkt := F64.dec 8 10;
            ps_beta_smb := F64.opp (F64.dec 7 10); ps_beta_hml := F64.opp (F64.dec 12 10);
            ps_risk_free := F64.dec 1 100; ps_noise := F64.dec 5 100 |}.
Proof.
  unfold parameter_set, reset_parameters, set_lab1_parameters,
    set_lab2_parameters, set_lab3_parameters.
  repeat split; simplify_map_eq; f_equal; vm_compute; reflexivity.
Qed.

(** ** The factor generator *)

Section Generator.

Context {G : BitGenerator} {D : DatetimeIndex}.

Lemma legacy_normal_fill_length (n : nat) (loc scale : float) (s : rng_state) :
  length (fst (legacy_normal_fill n loc scale s)) = n.
Proof.
  revert s. induction n as [|n IH]; intros s; simpl; [reflexivity|].
  destruct (legacy_gauss s) as [g s1]. specialize (IH s1).
  destruct (legacy_normal_fill n loc scale s1) as [rest s2]. simpl in *. lia.
Qed.

Lemma legacy_normal_fill_S (n : nat) (loc scale : float) (s : rng_state) :
  legacy_normal_fill (S n) loc scale s
  = (F64.add loc (F64.mul scale (fst (legacy_gauss s)))
       :: fst (legacy_normal_fill n loc scale (snd (legacy_gauss s))),
     snd (legacy_normal_fill n loc scale (snd (legacy_gauss s)))).
Proof.
  simpl. destruct (legacy_gauss s) as [g s1]. simpl.
  by destruct (legacy_normal_fill n loc scale s1).
Qed.

(** Filling [n + m] values is filling [n] and then [m] from the state the
    first [n] draws leave. *)
Lemma legacy_normal_fill_app (n m : nat) (loc scale : float) (s : rng_state) :
  legacy_normal_fill (n + m) loc scale s
  = (fst (legacy_normal_fill n loc scale s)
       ++ fst (legacy_normal_fill m loc scale (snd (legacy_normal_fill n loc scale s))),
     snd (legacy_normal_fill m loc scale (snd (legacy_normal_fill n loc scale s)))).
Proof.
  revert s. induction n as [|n IH]; intros s; simpl.
  - by destruct (legacy_normal_fill m loc scale s).
  - destruct (legacy_gauss s) as [g s1]. rewrite IH.
    destruct (legacy_normal_fill n loc scale s1) as [rest s2]. reflexivity.
Qed.

Lemma random_normal_ok (loc scale : float) (size : Z) (s : rng_state) :
  scale_ok scale = true -> 0 <= size ->
  random_normal loc scale size s
  = (Ok (fst (legacy_normal_fill (Z.to_nat size) loc scale s)),
     snd (legacy_normal_fill (Z.to_nat size) loc scale s)).
Proof.
  intros Hs Hn. unfold random_normal. rewrite Hs. simpl.
  destruct (Z.ltb_spec size 0) as [Hlt|_]; [lia|].
  by destruct (legacy_normal_fill (Z.to_nat size) loc scale s).
Qed.


Lemma random_normal_negative_scale (loc scale : float) (size : Z) (s : rng_state) :
  scale_ok scale = false -> random_normal loc scale size s = (Raise ValueError, s).
Proof. intros Hs. unfold random_normal. by rewrite Hs. Qed.

Lemma seeded_observations_length (months : Z) :
  length (fst (seeded_observations months)) = Z.to_nat months.
Proof.
  unfold seeded_observations.
  repeat match goal with
  | |- context [legacy_normal_fill ?n ?l ?c ?s] =>
      let H := fresh "Hlen" in
      pose proof (legacy_normal_fill_length n l c s) as H;
      destruct (legacy_normal_fill n l c s); simpl in H
  end.
  simpl. rewrite !length_zip_with. lia.
Qed.

(** A call with a period count that is not negative: the frame pairs the
    index with the seeded draws, and the generator is left in the state
    those draws lead to.  Neither depends on the state before the call. *)
Lemma generate_ff_data_nonneg (today : Timestamp) (months : Z) (s : rng_state) :
  date_range_periods D -> 0 <= months ->
  generate_ff_data today months s
  = (Ok (zip (date_range_month_end today months) (fst (seeded_observations months))),
     snd (seeded_observations months)).
Proof.
  intros HD Hn. unfold generate_ff_data, bind, seed, seeded_observations.
  rewrite random_normal_ok by done.
  pose proof (legacy_normal_fill_length (Z.to_nat months) (F64.dec 5 100 / F64.of_Z 12)%f64
    (F64.dec 15 100 / F64.sqrt (F64.of_Z 12))%f64 (legacy_seeding 42)) as H1.
  destruct (legacy_normal_fill _ _ _ (legacy_seeding 42)) as [mkt s1]; cbn [fst snd] in H1 |- *.
  rewrite random_normal_ok by done.
  pose proof (legacy_normal_fill_length (Z.to_nat months) (F64.dec 3 100 / F64.of_Z 12)%f64
    (F64.dec 10 100 / F64.sqrt (F64.of_Z 12))%f64 s1) as H2.
  destruct (legacy_normal_fill _ _ _ s1) as [smb s2]; cbn [fst snd] in H2 |- *.
  rewrite random_normal_ok by done.
  pose proof (legacy_normal_fill_length (Z.to_nat months) (F64.dec 4 100 / F64.of_Z 12)%f64
    (F64.dec 12 100 / F64.sqrt (F64.of_Z 12))%f64 s2) as H3.
  destruct (legacy_normal_fill _ _ _ s2) as [hml s3]; cbn [fst snd] in H3 |- *.
  unfold lift, DataFrame_of_columns. rewrite (HD today months).
  by rewrite decide_True.
Qed.


(** The seeding makes the call forget the state it starts from. *)
Lemma generate_ff_data_reseeds (today : Timestamp) (months : Z) (s1 s2 : rng_state) :
  generate_ff_data today months s1 = generate_ff_data today months s2.
Proof. reflexivity. Qed.



End Generator.

(** ** The return simulator *)

Section Simulator.

Context {G : BitGenerator} {D : DatetimeIndex}.

Lemma systematic_cons (P : Params) (t : Timestamp) (o : Observation) (F : DataFrame) :
  systematic P ((t, o) :: F) = (t, model_value P o) :: systematic P F.
Proof. destruct o as [[m s] h]. reflexivity. Qed.

Lemma systematic_length (P : Params) (F : DataFrame) :
  length (systematic P F) = length F.
Proof.
  induction F as [|[t o] F IH]; [reflexivity|].
  rewrite systematic_cons. simpl. by rewrite IH.
Qed.

Lemma systematic_lookup (P : Params) (F : DataFrame) (i : nat)
    (t : Timestamp) (o : Observation) :
  F !! i = Some (t, o) -> systematic P F !! i = Some (t, model_value P o).
Proof.
  revert i. induction F as [|[t' o'] F IH]; intros i Hi; [discriminate|].
  rewrite systematic_cons. destruct i as [|i]; simpl in *.
  - by inversion Hi.
  - by apply IH.
Qed.

(** The values of the systematic part depend on the observations alone,
    not on their labels. *)
Lemma systematic_values (P : Params) (F : DataFrame) :
  values (systematic P F) = map (model_value P) (map snd F).
Proof.
  induction F as [|[t o] F IH]; [reflexivity|].
  rewrite systematic_cons. unfold values in *. simpl. by rewrite IH.
Qed.

Lemma systematic_index (P : Params) (F : DataFrame) :
  index (systematic P F) = map fst F.
Proof.
  induction F as [|[t o] F IH]; [reflexivity|].
  rewrite systematic_cons. unfold index in *. simpl. by rewrite IH.
Qed.

(** A call with an accepted deviation: as many draws as the frame has
    rows, each added to the systematic value of its row. *)
Lemma fama_french_model_ok (P : Params) (F : DataFrame) (s : rng_state) :
  scale_ok (noise P) = true ->
  fama_french_model P F s
  = (Ok (zip_with (fun '(t, x) y => (t, F64.add x y)) (systematic P F)
           (fst (legacy_normal_fill (length F) (F64.of_Z 0) (noise P) s))),
     snd (legacy_normal_fill (length F) (F64.of_Z 0) (noise P) s)).
Proof.
  intros Hs. unfold fama_french_model, bind, len.
  rewrite random_normal_ok by (done || lia). rewrite Nat2Z.id.
  unfold lift, series_add_array.
  rewrite decide_True; [done|].
  by rewrite legacy_normal_fill_length, systematic_length.
Qed.

Lemma fama_french_model_refused (P : Params) (F : DataFrame) (s : rng_state) :
  scale_ok (noise P) = false ->
  fama_french_model P F s = (Raise ValueError, s).
Proof.
  intros Hs. unfold fama_french_model, bind.
  by rewrite random_normal_negative_scale.
Qed.

(** With a zero deviation every draw contributes [0.0]. *)
Lemma legacy_normal_fill_zero_scale (n : nat) (s : rng_state) :
  gauss_finite G ->
  fst (legacy_normal_fill n (F64.of_Z 0) F64.pzero s) = replicate n F64.pzero.
Proof.
  intros HG. revert s. induction n as [|n IH]; intros s; [reflexivity|].
  rewrite legacy_normal_fill_S. cbn [fst replicate].
  by rewrite IH, add_pzero_mul_pzero.
Qed.

Lemma zip_with_lookup_draw (S0 : Series) (draw : list float) (i : nat)
    (t : Timestamp) (x y : float) :
  S0 !! i = Some (t, x) -> draw !! i = Some y ->
  zip_with (fun '(t, x) y => (t, F64.add x y)) S0 draw !! i = Some (t, F64.add x y).
Proof. intros H1 H2. apply lookup_zip_with_Some. by exists (t, x), y. Qed.

Lemma zip_with_draw_index (S0 : Series) (draw : list float) :
  length S0 = length draw ->
  index (zip_with (fun '(t, x) y => (t, F64.add x y)) S0 draw) = index S0.
Proof.
  revert draw. unfold index.
  induction S0 as [|[t x] l IH]; intros [|y ys] Hl; try discriminate; [reflexivity|].
  simpl. f_equal. apply IH. by inversion Hl.
Qed.

Lemma zip_with_draw_values (S0 : Series) (draw : list float) :
  values (zip_with (fun '(t, x) y => (t, F64.add x y)) S0 draw)
  = zip_with F64.add (values S0) draw.
Proof.
  revert draw. unfold values.
  induction S0 as [|[t x] l IH]; intros [|y ys]; try reflexivity.
  simpl. f_equal. apply IH.
Qed.

(** C1, as the code has it: a call returns a series with one value per
    row of the frame for every parameter set whose deviation the generator
    accepts (a negative one, [-0.0] included, is refused), and
    with a noise of [0.0] the value of period [i] is, as a real number, exactly
    [alpha + beta_mkt * market[i] + beta_smb * size[i] + beta_hml * value[i]]:
    the term added for the noise is [0.0], so the two floats are the same,
    but for a sum [-0.0] that comes out as [0.0]. *)
Theorem fama_french_model_noise_free (P : Params) (F : DataFrame) (s : rng_state) :
  gauss_finite G ->
  (scale_ok (noise P) = true ->
   exists (r : Series) (s' : rng_state),
     fama_french_model P F s = (Ok r, s') /\ length r = length F)
  /\ (noise P = F64.pzero ->
      exists (r : Series) (s' : rng_state),
        fama_french_model P F s = (Ok r, s') /\ length r = length F
        /\ forall (i : nat) (t : Timestamp) (o : Observation),
             F !! i = Some (t, o) ->
             exists v : float,
               r !! i = Some (t, v) /\ F64.same_real v (model_value P o)).
Proof.
  intros HG.
  assert (Hlen : forall s0, scale_ok (noise P) = true ->
            length (zip_with (fun '(t, x) y => (t, F64.add x y)) (systematic P F)
              (fst (legacy_normal_fill (length F) (F64.of_Z 0) (noise P) s0)))
            = length F).
  { intros s0 _. rewrite length_zip_with, systematic_length, legacy_normal_fill_length. lia. }
  split.
  - intros Hok. eexists _, _. split; [by apply fama_french_model_ok|by apply Hlen].
  - intros Hz.
    assert (Hok : scale_ok (noise P) = true) by (by rewrite Hz).
    eexists _, _. split; [by apply fama_french_model_ok|].
    split; [by apply Hlen|].
    intros i t o Hi. exists (F64.add (model_value P o) F64.pzero).
    split; [|apply add_pzero_same_real].
    apply zip_with_lookup_draw; [by apply systematic_lookup|].
    rewrite Hz, legacy_normal_fill_zero_scale by done.
    apply lookup_replicate_2. by eapply lookup_lt_Some.
Qed.

(** C8: the only failure of a call is the [ValueError] of a deviation the
    generator refuses (a malformed parameter set), raised before anything
    is drawn; for every other parameter set and every frame the call
    succeeds, and the array of draws it adds always has the length of the
    series it is added to, so that the shapes never disagree. *)
Theorem fama_french_model_errors (P : Params) (F : DataFrame) (s : rng_state) :
  (scale_ok (noise P) = true ->
   exists (r : Series) (s' : rng_state),
     fama_french_model P F s = (Ok r, s')
     /\ index r = map fst F
     /\ length (systematic P F)
        = length (fst (legacy_normal_fill (length F) (F64.of_Z 0) (noise P) s)))
  /\ (scale_ok (noise P) = false ->
      fama_french_model P F s = (Raise ValueError, s)).
Proof.
  split; intros Hs; [|by apply fama_french_model_refused].
  eexists _, _. split; [by apply fama_french_model_ok|].
  assert (Hl : length (systematic P F)
               = length (fst (legacy_normal_fill (length F) (F64.of_Z 0) (noise P) s)))
    by (by rewrite legacy_normal_fill_length, systematic_length).
  split; [|exact Hl].
  by rewrite zip_with_draw_index, systematic_index.
Qed.

End Simulator.

(** ** Successive calls of the simulator *)

Section Successive.

Context {G : BitGenerator} {D : DatetimeIndex}.

Lemma series_eq (a b : Series) :
  index a = index b -> values a = values b -> a = b.
Proof.
  unfold index, values. revert b.
  induction a as [|[t x] a IH]; intros [|[t' x'] b] Hi Hv; try discriminate; [reflexivity|].
  simpl in *. inversion Hi; inversion Hv; subst. f_equal. by apply IH.
Qed.

(** C5, as the code has it: the simulator never seeds the generator.  Of
    two successive calls with the same arguments the first adds the draws
    1..N of the generator's stream and the second the draws N+1..2N, and
    the generator is left 2N draws further; the two series are equal
    exactly when, period by period, the two sums round to the same float
    (which is the case of a noise small enough to be lost in the
    rounding, and of an empty frame). *)
Theorem fama_french_model_twice (P : Params) (F : DataFrame) (s : rng_state) :
  scale_ok (noise P) = true ->
  exists (d1 d2 : list float) (r1 r2 : Series) (s1 s2 : rng_state),
    legacy_normal_fill (length F + length F) (F64.of_Z 0) (noise P) s = (d1 ++ d2, s2)
    /\ length d1 = length F /\ length d2 = length F
    /\ fama_french_model P F s = (Ok r1, s1)
    /\ fama_french_model P F s1 = (Ok r2, s2)
    /\ values r1 = zip_with F64.add (map (model_value P) (map snd F)) d1
    /\ values r2 = zip_with F64.add (map (model_value P) (map snd F)) d2
    /\ (r1 = r2 <-> values r1 = values r2).
Proof.
  intros Hs.
  eexists _, _, _, _, _, _.
  split; [apply legacy_normal_fill_app|].
  split; [apply legacy_normal_fill_length|].
  split; [apply legacy_normal_fill_length|].
  split; [by apply fama_french_model_ok|].
  split; [by apply fama_french_model_ok|].
  split; [by rewrite zip_with_draw_values, systematic_values|].
  split; [by rewrite zip_with_draw_values, systematic_values|].
  split; [by intros ->|].
  intros Hv. apply series_eq; [|exact Hv].
  rewrite !zip_with_draw_index; [done| |];
    by rewrite legacy_normal_fill_length, systematic_length.
Qed.

Lemma fama_french_model_empty (P : Params) (s : rng_state) :
  scale_ok (noise P) = true -> fama_french_model P [] s = (Ok [], s).
Proof. intros Hs. by rewrite fama_french_model_ok. Qed.

End Successive.

(** ** The estimator *)

Section Estimator.

Context {D : DatetimeIndex} {L : LeastSquares}.

Lemma column_max_finite_intro (col : list float) :
  col <> [] -> Forall (fun v => F64.is_finite v = true) col ->
  column_max_finite col = true.
Proof.
  destruct col as [|x xs]; intros Hne Hall; [done|].
  inversion Hall; subst. by apply np_max_finite.
Qed.

Lemma finite_factors_columns (factors : DataFrame) :
  finite_factors factors ->
  Forall (fun v => F64.is_finite v = true) (values (col_Mkt_RF factors))
  /\ Forall (fun v => F64.is_finite v = true) (values (col_SMB factors))
  /\ Forall (fun v => F64.is_finite v = true) (values (col_HML factors)).
Proof.
  unfold values. induction 1 as [|[t [[m s] h]] F (Hm & Hs & Hh) _ (IH1 & IH2 & IH3)];
    simpl; repeat split; by constructor.
Qed.

Lemma sub_scalar_index (r : Series) (rf : float) : index (sub_scalar r rf) = index r.
Proof.
  unfold index. induction r as [|[t x] r IH]; [reflexivity|].
  simpl. by rewrite IH.
Qed.

(** The design has one row per observation, and three or four columns. *)
Lemma add_constant_shape (factors : DataFrame) :
  x_index (add_constant factors) = map fst factors
  /\ (length (x_columns (add_constant factors)) = 3%nat
      \/ length (x_columns (add_constant factors)) = 4%nat)
  /\ Forall (fun c => length (snd c) = length factors) (x_columns (add_constant factors)).
Proof.
  unfold add_constant; simpl. split; [reflexivity|].
  assert (Hc : length (values (col_Mkt_RF factors)) = length factors
               /\ length (values (col_SMB factors)) = length factors
               /\ length (values (col_HML factors)) = length factors).
  { unfold values, col_Mkt_RF, col_SMB, col_HML. by rewrite !length_map. }
  destruct Hc as (H1 & H2 & H3).
  destruct (_ || _); (split; [auto|]); repeat constructor; simpl;
    try done; by rewrite length_map.
Qed.

(** C3, as the code has it: the estimator checks no rank.  On every
    frame with at least one observation whose factor returns are finite,
    and every return series over the same index, [run_regression] returns
    the results of the pseudo-inverse fit; this holds in particular for
    three observations, where the design has fewer rows than columns. *)
Theorem run_regression_total (stock_returns : Series) (factors : DataFrame) (rf : float) :
  factors <> [] -> finite_factors factors -> index stock_returns = map fst factors ->
  run_regression stock_returns factors rf
  = Ok (pinv_fit (values (sub_scalar stock_returns rf))
                 (map snd (x_columns (add_constant factors)))).
Proof.
  intros Hne Hfin Hidx. unfold run_regression, OLS_fit.
  destruct (add_constant_shape factors) as (Hx & _ & _). rewrite Hx.
  rewrite decide_False by (by destruct factors).
  rewrite sub_scalar_index, Hidx, decide_True by done.
  destruct (finite_factors_columns factors Hfin) as (H1 & H2 & H3).
  assert (Hcol : forall f : Timestamp * Observation -> Timestamp * float,
            values (map f factors) <> []).
  { intros f. by destruct factors. }
  assert (Hones : column_max_finite (map (fun _ => F64.of_Z 1) factors) = true).
  { apply column_max_finite_intro; [by destruct factors|].
    clear. induction factors as [|row F IH]; simpl; by constructor. }
  assert (Hall : forallb (fun c => column_max_finite (snd c))
                   (x_columns (add_constant factors)) = true).
  { assert (Hc1 : column_max_finite (values (col_Mkt_RF factors)) = true)
      by (apply column_max_finite_intro; [apply Hcol | done]).
    assert (Hc2 : column_max_finite (values (col_SMB factors)) = true)
      by (apply column_max_finite_intro; [apply Hcol | done]).
    assert (Hc3 : column_max_finite (values (col_HML factors)) = true)
      by (apply column_max_finite_intro; [apply Hcol | done]).
    unfold add_constant; cbn [x_columns].
    destruct (existsb _ _); cbn [forallb snd]; by rewrite ?Hones, Hc1, Hc2, Hc3. }
  assert (Hfinite : design_finite (add_constant factors) = true).
  { assert (Hb : forall col : list float,
              Forall (fun v => F64.is_finite v = true) col ->
              forallb F64.is_finite col = true).
    { intros col Hc. induction Hc as [|v col Hv _ IH]; [done|].
      cbn [forallb]. by rewrite Hv, IH. }
    assert (Ho : forallb F64.is_finite (map (fun _ => F64.of_Z 1) factors) = true).
    { clear. induction factors as [|row F IH]; [done|]. cbn [map forallb]. by rewrite IH. }
    unfold design_finite, add_constant; cbn [x_columns].
    destruct (existsb _ _); cbn [forallb snd];
      by rewrite ?Ho, (Hb _ H1), (Hb _ H2), (Hb _ H3). }
  by rewrite Hall, Hfinite.
Qed.

End Estimator.

(** ** A page run *)

Section PageRun.

Context {G : BitGenerator} {D : DatetimeIndex} {L : LeastSquares}.

Lemma col_values (F : DataFrame) :
  values (col_Mkt_RF F) = map (fun o : Observation => fst (fst o)) (map snd F)
  /\ values (col_SMB F) = map (fun o : Observation => snd (fst o)) (map snd F)
  /\ values (col_HML F) = map (fun o : Observation => snd o) (map snd F).
Proof.
  unfold values. induction F as [|[t [[m s] h]] F (IH1 & IH2 & IH3)]; [done|].
  simpl. by rewrite IH1, IH2, IH3.
Qed.

Lemma sub_scalar_values (r : Series) (rf : float) :
  values (sub_scalar r rf) = map (fun x => F64.sub x rf) (values r).
Proof.
  unfold values. induction r as [|[t x] r IH]; [reflexivity|].
  simpl. by rewrite IH.
Qed.

(** The columns of the design depend on the observations alone. *)
Lemma add_constant_columns_labels (F1 F2 : DataFrame) :
  map snd F1 = map snd F2 ->
  x_columns (add_constant F1) = x_columns (add_constant F2).
Proof.
  intros Hobs. unfold add_constant; cbn [x_columns].
  destruct (col_values F1) as (-> & -> & ->).
  destruct (col_values F2) as (-> & -> & ->).
  rewrite Hobs.
  assert (Hones : map (fun _ : Timestamp * Observation => F64.of_Z 1) F1
                  = map (fun _ : Timestamp * Observation => F64.of_Z 1) F2).
  { assert (Hlen : length F1 = length F2)
      by (by rewrite <- (length_map snd F1), Hobs, length_map).
    clear Hobs. revert F2 Hlen.
    induction F1 as [|a F1 IH]; intros [|b F2] Hlen; try discriminate; [done|].
    simpl. f_equal. apply IH. by inversion Hlen. }
  by rewrite Hones.
Qed.

(** The fit sees the values of the returns and of the factors, not the
    dates they are labelled with. *)
Lemma run_regression_labels (r1 r2 : Series) (F1 F2 : DataFrame) (rf : float) :
  values r1 = values r2 -> map snd F1 = map snd F2 ->
  index r1 = map fst F1 -> index r2 = map fst F2 ->
  run_regression r1 F1 rf = run_regression r2 F2 rf.
Proof.
  intros Hv Hobs Hi1 Hi2. unfold run_regression, OLS_fit, design_finite.
  rewrite (add_constant_columns_labels F1 F2 Hobs).
  assert (Hx : forall F : DataFrame, x_index (add_constant F) = map fst F) by reflexivity.
  rewrite !Hx, !sub_scalar_index, !sub_scalar_values, Hv, Hi1, Hi2.
  destruct F1 as [|a F1], F2 as [|b F2]; simpl in Hobs; try discriminate;
    repeat case_decide; done.
Qed.

Lemma fama_french_model_labels (P : Params) (F1 F2 : DataFrame) (s : rng_state) :
  map snd F1 = map snd F2 ->
  (exists e, fama_french_model P F1 s = (Raise e, s)
             /\ fama_french_model P F2 s = (Raise e, s))
  \/ (exists (r1 r2 : Series) (s' : rng_state),
        fama_french_model P F1 s = (Ok r1, s')
        /\ fama_french_model P F2 s = (Ok r2, s')
        /\ values r1 = values r2
        /\ index r1 = map fst F1 /\ index r2 = map fst F2
        /\ length r1 = length F1).
Proof.
  intros Hobs.
  assert (Hlen : length F1 = length F2)
    by (by rewrite <- (length_map snd F1), Hobs, length_map).
  destruct (scale_ok (noise P)) eqn:Hs.
  - right. eexists _, _, _.
    split; [by apply fama_french_model_ok|].
    split; [rewrite Hlen; by apply fama_french_model_ok|].
    rewrite !zip_with_draw_values, !systematic_values, Hobs, Hlen.
    split; [done|].
    rewrite !zip_with_draw_index, !systematic_index
      by (by rewrite legacy_normal_fill_length, systematic_length).
    repeat split.
    rewrite length_zip_with, systematic_length, legacy_normal_fill_length. lia.
  - left. exists ValueError. by rewrite !fama_french_model_refused.
Qed.

(** The two frames two page runs generate: the same observations. *)
Lemma generated_frames (t1 t2 : Timestamp) :
  date_range_periods D ->
  map snd (zip (date_range_month_end t1 60) (fst (seeded_observations 60)))
  = map snd (zip (date_range_month_end t2 60) (fst (seeded_observations 60)))
  /\ length (zip (date_range_month_end t1 60) (fst (seeded_observations 60))) = 60%nat.
Proof.
  intros HD.
  pose proof (seeded_observations_length 60) as Hobs.
  pose proof (HD t1 60) as H1. pose proof (HD t2 60) as H2.
  rewrite !snd_zip by lia. split; [done|].
  rewrite length_zip_with, H1, Hobs. lia.
Qed.

Lemma bind_ok {S A B : Type} (m : StateExn S A) (k : A -> StateExn S B)
    (s s' : S) (a : A) :
  m s = (Ok a, s') -> bind m k s = k a s'.
Proof. intros H. unfold bind. by rewrite H. Qed.

(** Lines 159-167, once the factors are generated. *)
Lemma simulated_returns_eq (st : session_state) (t : Timestamp) (s : rng_state) :
  date_range_periods D ->
  simulated_returns st t s
  = match read_params st with
    | Ok P =>
        fama_french_model P
          (zip (date_range_month_end t 60) (fst (seeded_observations 60)))
          (snd (seeded_observations 60))
    | Raise e => (Raise e, snd (seeded_observations 60))
    end.
Proof.
  intros HD. unfold simulated_returns.
  erewrite bind_ok by (by apply generate_ff_data_nonneg).
  unfold bind, lift. by destruct (read_params st).
Qed.

(** Lines 159-168, once the factors are generated. *)
Lemma pipeline_eq (st : session_state) (t : Timestamp) (s : rng_state) :
  date_range_periods D ->
  pipeline st t s
  = match read_params st with
    | Raise e => (Raise e, snd (seeded_observations 60))
    | Ok P =>
        let F := zip (date_range_month_end t 60) (fst (seeded_observations 60)) in
        match fama_french_model P F (snd (seeded_observations 60)) with
        | (Raise e, s') => (Raise e, s')
        | (Ok r, s') =>
            match getitem st "risk_free" with
            | Raise e => (Raise e, s')
            | Ok rf =>
                match run_regression r F rf with
                | Raise e => (Raise e, s')
                | Ok m => (Ok (r, m), s')
                end
            end
        end
    end.
Proof.
  intros HD. unfold pipeline.
  erewrite bind_ok by (by apply generate_ff_data_nonneg).
  unfold bind, lift, ret. destruct (read_params st) as [P|e]; [|done].
  cbv zeta. destruct (fama_french_model P _ _) as [[r|e] s']; [|done].
  destruct (getitem st "risk_free") as [rf|e]; [|done].
  by destruct (run_regression r _ rf).
Qed.

(** C10: [generate_ff_data] seeds the process-wide generator on every
    call, so a page run is deterministic: two runs on the same session
    state, from whatever generator states and at whatever clock readings,
    simulate the same returns, noise draws included and whatever the
    noise level, fit the same model, fail the same way if they fail, and
    leave the generator in the same state.  With a parameter set whose
    deviation is accepted the simulation succeeds and gives 60 returns. *)
Theorem page_run_deterministic
    (st : session_state) (t1 t2 : Timestamp) (s1 s2 : rng_state) :
  date_range_periods D ->
  result_map values (fst (simulated_returns st t1 s1))
  = result_map values (fst (simulated_returns st t2 s2))
  /\ snd (simulated_returns st t1 s1) = snd (simulated_returns st t2 s2)
  /\ result_map observable (fst (pipeline st t1 s1))
     = result_map observable (fst (pipeline st t2 s2))
  /\ snd (pipeline st t1 s1) = snd (pipeline st t2 s2)
  /\ (forall P : Params,
        read_params st = Ok P -> scale_ok (noise P) = true ->
        exists (r : Series) (s' : rng_state),
          simulated_returns st t1 s1 = (Ok r, s') /\ length r = 60%nat).
Proof.
  intros HD.
  destruct (generated_frames t1 t2 HD) as (Hobs & Hlen).
  rewrite !simulated_returns_eq, !pipeline_eq by done.
  destruct (read_params st) as [P|e]; [|repeat split; done].
  cbv zeta.
  destruct (fama_french_model_labels P _ _ (snd (seeded_observations 60)) Hobs)
    as [(e & He1 & He2)|(r1 & r2 & s' & -> & -> & Hv & Hi1 & Hi2 & Hl)].
  - rewrite He1, He2. repeat split; try done. intros P' [= <-] Hs.
    rewrite fama_french_model_ok in He1 by done. discriminate He1.
  - cbn [fst snd result_map]. rewrite Hv.
    split; [done|]. split; [done|].
    destruct (getitem st "risk_free") as [rf|e]; [|repeat split; eauto with lia].
    rewrite (run_regression_labels r1 r2 _ _ rf Hv Hobs Hi1 Hi2).
    destruct (run_regression r2 _ rf) as [m|e]; cbn [fst snd result_map];
      unfold observable; cbn [fst snd]; rewrite ?Hv;
      repeat split; try done; intros P' _ _; exists r1, s'; split; try done; lia.
Qed.

End PageRun.

(** ** The reference instances meet the assumptions *)

Lemma cyclic_generator_finite : gauss_finite cyclic_generator.
Proof.
  intros s. cbn in s. cbn [legacy_gauss cyclic_generator fst].
  assert (Hs : 0 <= s mod 5 < 5) by (apply Z.mod_pos_bound; lia).
  assert (Hc : s mod 5 = 0 \/ s mod 5 = 1 \/ s mod 5 = 2 \/ s mod 5 = 3 \/ s mod 5 = 4)
    by lia.
  destruct Hc as [-> | [-> | [-> | [-> | ->]]]]; reflexivity.
Qed.

Lemma month_numbers_periods : date_range_periods month_numbers.
Proof.
  intros t n. cbn [date_range_month_end month_numbers].
  by rewrite length_map, length_seq.
Qed.

Lemma sample_frame_finite : @finite_factors month_numbers sample_frame.
Proof. repeat constructor. Qed.

(** ** The scenario of ten periods without factor returns *)

Lemma zero_frame_zero (n : nat) :
  Forall (fun row : Z * Observation => snd row = (F64.pzero, F64.pzero, F64.pzero))
         (zero_frame n).
Proof.
  unfold zero_frame. generalize (seq 0 n) as l.
  induction l as [|k l IH]; simpl; by constructor.
Qed.

Lemma zero_rows_sum {D : DatetimeIndex} (F : DataFrame) :
  Forall (fun row : Timestamp * Observation =>
            snd row = (F64.pzero, F64.pzero, F64.pzero)) F ->
  zip_with F64.add (map (model_value noise_free_default) (map snd F))
           (replicate (length F) F64.pzero)
  = replicate (length F) (F64.dec 5 1000).
Proof.
  induction 1 as [|row F Hrow _ IH]; [reflexivity|].
  cbn [map zip_with replicate length]. rewrite Hrow, IH. f_equal.
Qed.

(** The simulation half of the scenario: with the Default loadings, no
    noise and factors that are all zero, every simulated return is the
    float 0.005, whatever the generator draws. *)
Lemma zero_factors_constant_returns {G : BitGenerator} {D : DatetimeIndex}
    (F : DataFrame) (s : rng_state) :
  gauss_finite G ->
  Forall (fun row : Timestamp * Observation =>
            snd row = (F64.pzero, F64.pzero, F64.pzero)) F ->
  exists (r : Series) (s' : rng_state),
    fama_french_model noise_free_default F s = (Ok r, s')
    /\ values r = replicate (length F) (F64.dec 5 1000)
    /\ index r = map fst F.
Proof.
  intros HG HF. eexists _, _.
  split; [by apply fama_french_model_ok|].
  rewrite zip_with_draw_values, systematic_values.
  cbn [noise noise_free_default].
  rewrite legacy_normal_fill_zero_scale by done.
  split; [by apply zero_rows_sum|].
  rewrite zip_with_draw_index, systematic_index; [done|].
  by rewrite systematic_length, length_replicate.
Qed.

(** The estimation half hands the fit a dependent variable that is the
    float [0.005 - 0.02] in each of the ten periods and a design of rank
    one (a column of ones and three columns of zeros); the fit is not
    refused.  What it reports is the kernel's. *)
Lemma zero_factors_design {L : LeastSquares} :
  @run_regression month_numbers L
    (map (fun k => (Z.of_nat k, F64.dec 5 1000)) (seq 0 10)) (zero_frame 10) (F64.dec 2 100)
  = Ok (pinv_fit (replicate 10 (F64.sub (F64.dec 5 1000) (F64.dec 2 100)))
          [replicate 10 (F64.of_Z 1); replicate 10 F64.pzero;
           replicate 10 F64.pzero; replicate 10 F64.pzero]).
Proof.
  rewrite run_regression_total.
  - reflexivity.
  - discriminate.
  - pose proof (zero_frame_zero 10) as Hz. unfold finite_factors.
    eapply Forall_impl; [exact Hz|].
    intros [t [[m sm] h]] [= -> -> ->]. done.
  - reflexivity.
Qed.

(** ** The theorems on concrete inputs *)




Lemma fama_french_model_noise_free_witness :
  gauss_finite cyclic_generator
  /\ noise noise_free_default = F64.pzero
  /\ exists (r : @Series month_numbers) (s' : Z),
       @fama_french_model cyclic_generator month_numbers noise_free_default sample_frame 7
       = (Ok r, s')
       /\ length r = length sample_frame
       /\ forall (i : nat) (t : Z) (o : Observation),
            sample_frame !! i = Some (t, o) ->
            exists v : float,
              r !! i = Some (t, v) /\ F64.same_real v (model_value noise_free_default o).
Proof.
  split; [exact cyclic_generator_finite|]. split; [reflexivity|].
  apply (proj2 (@fama_french_model_noise_free cyclic_generator month_numbers
                  noise_free_default sample_frame 7 cyclic_generator_finite)).
  reflexivity.
Defined.

Lemma fama_french_model_twice_witness :
  scale_ok (noise default_params) = true
  /\ exists (d1 d2 : list float) (r1 r2 : @Series month_numbers) (s1 s2 : Z),
       @legacy_normal_fill cyclic_generator (length sample_frame + length sample_frame)
         (F64.of_Z 0) (noise default_params) 7 = (d1 ++ d2, s2)
       /\ length d1 = length sample_frame /\ length d2 = length sample_frame
       /\ @fama_french_model cyclic_generator month_numbers default_params sample_frame 7
          = (Ok r1, s1)
       /\ @fama_french_model cyclic_generator month_numbers default_params sample_frame s1
          = (Ok r2, s2)
       /\ values r1
          = zip_with F64.add (map (model_value default_params) (map snd sample_frame)) d1
       /\ values r2
          = zip_with F64.add (map (model_value default_params) (map snd sample_frame)) d2
       /\ (r1 = r2 <-> values r1 = values r2).
Proof.
  split; [reflexivity|].
  apply (@fama_french_model_twice cyclic_generator month_numbers default_params
           sample_frame 7).
  reflexivity.
Defined.

(** The Default preset has a noise level above zero, and on the frame
    without rows two successive calls return the same (empty) series. *)
Lemma fama_french_model_twice_same :
  F64.ltb F64.pzero (noise default_params) = true
  /\ exists (r : @Series month_numbers) (s1 s2 : Z),
       @fama_french_model cyclic_generator month_numbers default_params [] 7 = (Ok r, s1)
       /\ @fama_french_model cyclic_generator month_numbers default_params [] s1 = (Ok r, s2).
Proof.
  split; [reflexivity|]. exists [], 7, 7. split; reflexivity.
Qed.

Lemma run_regression_total_witness :
  sample_frame <> [] /\ @finite_factors month_numbers sample_frame
  /\ index sample_returns = map fst sample_frame
  /\ @run_regression month_numbers null_kernel sample_returns sample_frame (F64.dec 2 100)
     = Ok (@pinv_fit null_kernel (values (sub_scalar sample_returns (F64.dec 2 100)))
                     (map snd (x_columns (add_constant sample_frame)))).
Proof.
  split; [discriminate|]. split; [exact sample_frame_finite|]. split; [reflexivity|].
  apply (@run_regression_total month_numbers null_kernel sample_returns sample_frame
           (F64.dec 2 100)).
  - discriminate.
  - exact sample_frame_finite.
  - reflexivity.
Defined.

(** Three observations and a design of four columns, the intercept
    included: the design cannot have full column rank, and the estimator
    returns results. *)
Lemma run_regression_three_observations :
  length sample_frame = 3%nat
  /\ map fst (x_columns (add_constant sample_frame))
     = ["const"; "Mkt-RF"; "SMB"; "HML"]%string
  /\ is_ok (@run_regression month_numbers null_kernel sample_returns sample_frame
              (F64.dec 2 100)) = true.
Proof. vm_compute. repeat split; reflexivity. Qed.

Lemma page_run_deterministic_witness :
  date_range_periods month_numbers
  /\ result_map values
       (fst (@simulated_returns cyclic_generator month_numbers (reset_parameters ∅) 100 7))
     = result_map values
         (fst (@simulated_returns cyclic_generator month_numbers (reset_parameters ∅) 250 11))
  /\ snd (@simulated_returns cyclic_generator month_numbers (reset_parameters ∅) 100 7)
     = snd (@simulated_returns cyclic_generator month_numbers (reset_parameters ∅) 250 11)
  /\ result_map observable
       (fst (@pipeline cyclic_generator month_numbers null_kernel (reset_parameters ∅) 100 7))
     = result_map observable
         (fst (@pipeline cyclic_generator month_numbers null_kernel (reset_parameters ∅) 250 11)).
Proof.
  split; [exact month_numbers_periods|].
  pose proof (@page_run_deterministic cyclic_generator month_numbers null_kernel
                (reset_parameters ∅) 100 250 7 11 month_numbers_periods)
    as (H1 & H2 & H3 & _).
  exact (conj H1 (conj H2 H3)).
Defined.

(** * Further properties of the code *)

(** ** Presets and sliders *)

(** Six writes, whatever the values written. *)
Lemma six_writes_lookup (st : session_state) (a b c d e f : float) :
  <["noise" := f]> (<["risk_free" := e]> (<["alpha" := d]> (<["hml_beta" := c]>
    (<["smb_beta" := b]> (<["market_beta" := a]> st))))) !! "market_beta" = Some a
  /\ <["noise" := f]> (<["risk_free" := e]> (<["alpha" := d]> (<["hml_beta" := c]>
       (<["smb_beta" := b]> (<["market_beta" := a]> st))))) !! "smb_beta" = Some b
  /\ <["noise" := f]> (<["risk_free" := e]> (<["alpha" := d]> (<["hml_beta" := c]>
       (<["smb_beta" := b]> (<["market_beta" := a]> st))))) !! "hml_beta" = Some c
  /\ <["noise" := f]> (<["risk_free" := e]> (<["alpha" := d]> (<["hml_beta" := c]>
       (<["smb_beta" := b]> (<["market_beta" := a]> st))))) !! "alpha" = Some d
  /\ <["noise" := f]> (<["risk_free" := e]> (<["alpha" := d]> (<["hml_beta" := c]>
       (<["smb_beta" := b]> (<["market_beta" := a]> st))))) !! "risk_free" = Some e
  /\ <["noise" := f]> (<["risk_free" := e]> (<["alpha" := d]> (<["hml_beta" := c]>
       (<["smb_beta" := b]> (<["market_beta" := a]> st))))) !! "noise" = Some f.
Proof. repeat split; by simplify_map_eq. Qed.

Ltac six_keys k tac :=
  destruct (decide (k = "noise"%string)) as [->|?]; [tac|];
  destruct (decide (k = "risk_free"%string)) as [->|?]; [tac|];
  destruct (decide (k = "alpha"%string)) as [->|?]; [tac|];
  destruct (decide (k = "hml_beta"%string)) as [->|?]; [tac|];
  destruct (decide (k = "smb_beta"%string)) as [->|?]; [tac|];
  destruct (decide (k = "market_beta"%string)) as [->|?]; [tac|].

Lemma six_writes_override (st : session_state) (a b c d e f a' b' c' d' e' f' : float) :
  <["noise" := f']> (<["risk_free" := e']> (<["alpha" := d']> (<["hml_beta" := c']>
    (<["smb_beta" := b']> (<["market_beta" := a']>
      (<["noise" := f]> (<["risk_free" := e]> (<["alpha" := d]> (<["hml_beta" := c]>
        (<["smb_beta" := b]> (<["market_beta" := a]> st)))))))))))
  = <["noise" := f']> (<["risk_free" := e']> (<["alpha" := d']> (<["hml_beta" := c']>
      (<["smb_beta" := b']> (<["market_beta" := a']> st))))).
Proof.
  apply map_eq; intros k. six_keys k ltac:(by simplify_map_eq).
  by rewrite !lookup_insert_ne.
Qed.

Lemma six_writes_cover (st : session_state) (a b c d e f a' b' c' d' e' f' : float) :
  <["noise" := f]> (<["risk_free" := e]> (<["alpha" := d]> (<["hml_beta" := c]>
    (<["smb_beta" := b]> (<["market_beta" := a]> st)))))
  ∪ <["market_beta" := a']> (<["smb_beta" := b']> (<["hml_beta" := c']>
      (<["alpha" := d']> (<["risk_free" := e']> (<["noise" := f']> ∅)))))
  = <["noise" := f]> (<["risk_free" := e]> (<["alpha" := d]> (<["hml_beta" := c]>
      (<["smb_beta" := b]> (<["market_beta" := a]> st))))).
Proof.
  apply map_eq; intros k. rewrite lookup_union.
  six_keys k ltac:(by simplify_map_eq).
  rewrite !lookup_insert_ne, lookup_empty by done. by destruct (st !! k).
Qed.

Lemma six_writes_read_params (st : session_state) (a b c d e f : float) :
  read_params
    (<["noise" := f]> (<["risk_free" := e]> (<["alpha" := d]> (<["hml_beta" := c]>
       (<["smb_beta" := b]> (<["market_beta" := a]> st))))))
  = Ok {| beta_mkt := a; beta_smb := b; beta_hml := c; alpha := d; noise := f |}.
Proof.
  destruct (six_writes_lookup st a b c d e f) as (E1 & E2 & E3 & E4 & _ & E6).
  unfold read_params, getitem. by rewrite E1, E2, E3, E4, E6.
Qed.

(** The keys outside the bounds of their slider after each preset. *)
Lemma presets_out_of_range (st : session_state) :
  out_of_range (reset_parameters st) = []
  /\ out_of_range (set_lab1_parameters st) = []
  /\ out_of_range (set_lab2_parameters st) = ["hml_beta"%string]
  /\ out_of_range (set_lab3_parameters st) = ["hml_beta"%string].
Proof.
  unfold out_of_range, sliders,
    reset_parameters, set_lab1_parameters, set_lab2_parameters, set_lab3_parameters.
  cbn [List.filter sl_key].
  repeat split.
  all: match goal with
       | |- context [<["noise" := ?f]> (<["risk_free" := ?e]> (<["alpha" := ?d]>
              (<["hml_beta" := ?c]> (<["smb_beta" := ?b]> (<["market_beta" := ?a]> ?m)))))] =>
           destruct (six_writes_lookup m a b c d e f) as (E1 & E2 & E3 & E4 & E5 & E6);
           rewrite E1, E2, E3, E4, E5, E6
       end.
  all: vm_compute; reflexivity.
Qed.

(** X1: the last preset wins: applied after any preset (itself included), a
    preset leaves the session state it leaves when applied alone. *)
Theorem presets_override :
  Forall (fun p => Forall (fun q => forall st : session_state, q (p st) = q st) presets)
         presets.
Proof.
  repeat constructor; intros st; apply six_writes_override.
Qed.

Lemma preset_other_keys_witness :
  ("lab"%string ∉ preset_keys)
  /\ reset_parameters {["lab"%string := F64.pzero]} !! "lab"%string = Some F64.pzero.
Proof.
  assert (Hk : "lab"%string ∉ preset_keys).
  { unfold preset_keys. rewrite !not_elem_of_cons. repeat split; try done.
    apply not_elem_of_nil. }
  split; [exact Hk|].
  rewrite (proj1 (preset_other_keys {["lab"%string := F64.pzero]} "lab" Hk)).
  apply lookup_singleton_eq.
Defined.

(** X3: the Reset button restores the starting values of the sliders: the
    state it leaves is the sliders' defaults laid over the state before. *)
Theorem reset_parameters_slider_defaults (st : session_state) :
  reset_parameters st = slider_defaults ∪ st
  /\ map sl_key sliders = preset_keys.
Proof.
  split; [|reflexivity].
  apply map_eq; intros k. rewrite lookup_union.
  unfold slider_defaults, sliders; cbn [foldr sl_key sl_value].
  unfold reset_parameters.
  destruct (decide (k = "noise"%string)) as [->|?];
    [simplify_map_eq; by destruct (st !! _)|].
  destruct (decide (k = "risk_free"%string)) as [->|?];
    [simplify_map_eq; by destruct (st !! _)|].
  destruct (decide (k = "alpha"%string)) as [->|?];
    [simplify_map_eq; by destruct (st !! _)|].
  destruct (decide (k = "hml_beta"%string)) as [->|?];
    [simplify_map_eq; by destruct (st !! _)|].
  destruct (decide (k = "smb_beta"%string)) as [->|?];
    [simplify_map_eq; by destruct (st !! _)|].
  destruct (decide (k = "market_beta"%string)) as [->|?];
    [simplify_map_eq; by destruct (st !! _)|].
  rewrite !lookup_insert_ne, lookup_empty by done.
  by destruct (st !! k).
Qed.

(** X4: Default and Lab 1 keep every parameter within the bounds of its
    slider; Lab 2 and Lab 3 write an [hml_beta] (1.1 and -1.2) that lies
    outside the bounds -1.0 and 1.0 of the HML slider, and keep the other
    five within theirs. *)
Theorem presets_slider_bounds (st : session_state) :
  out_of_range (reset_parameters st) = []
  /\ out_of_range (set_lab1_parameters st) = []
  /\ out_of_range (set_lab2_parameters st) = ["hml_beta"%string]
  /\ out_of_range (set_lab3_parameters st) = ["hml_beta"%string].
Proof. exact (presets_out_of_range st). Qed.

(** ** The draws behind the factors and the noise *)

Section StreamFacts.

Context {G : BitGenerator} {D : DatetimeIndex}.

Lemma gauss_draws_S (n : nat) (s : rng_state) :
  gauss_draws (S n) s
  = (fst (legacy_gauss s) :: fst (gauss_draws n (snd (legacy_gauss s))),
     snd (gauss_draws n (snd (legacy_gauss s)))).
Proof.
  simpl. destruct (legacy_gauss s) as [g s1]. simpl.
  by destruct (gauss_draws n s1).
Qed.

Lemma gauss_draws_length (n : nat) (s : rng_state) :
  length (fst (gauss_draws n s)) = n.
Proof.
  revert s. induction n as [|n IH]; intros s; [reflexivity|].
  rewrite gauss_draws_S. simpl. by rewrite IH.
Qed.

Lemma gauss_draws_app (n m : nat) (s : rng_state) :
  gauss_draws (n + m) s
  = (fst (gauss_draws n s) ++ fst (gauss_draws m (snd (gauss_draws n s))),
     snd (gauss_draws m (snd (gauss_draws n s)))).
Proof.
  revert s. induction n as [|n IH]; intros s.
  - simpl. by destruct (gauss_draws m s).
  - change (S n + m)%nat with (S (n + m)). rewrite !gauss_draws_S, IH. reflexivity.
Qed.

(** [normal] scales the standard draws one by one; the state it leaves
    depends on how many it draws, not on [loc] or [scale]. *)
Lemma legacy_normal_fill_draws (n : nat) (loc scale : float) (s : rng_state) :
  legacy_normal_fill n loc scale s
  = (map (scaled loc scale) (fst (gauss_draws n s)), snd (gauss_draws n s)).
Proof.
  revert s. induction n as [|n IH]; intros s; [reflexivity|].
  rewrite legacy_normal_fill_S, gauss_draws_S, IH. reflexivity.
Qed.


(** Three blocks of [n] draws, one after the other. *)
Lemma gauss_draws_blocks (n : nat) (s : rng_state) :
  gauss_draws (3 * n) s
  = (fst (gauss_draws n s)
       ++ fst (gauss_draws n (snd (gauss_draws n s)))
       ++ fst (gauss_draws n (snd (gauss_draws n (snd (gauss_draws n s))))),
     snd (gauss_draws n (snd (gauss_draws n (snd (gauss_draws n s)))))).
Proof.
  replace (3 * n)%nat with (n + (n + n))%nat by lia.
  by rewrite !gauss_draws_app.
Qed.

Lemma seeded_observations_draws (months : Z) :
  seeded_observations months
  = (zip (zip (map mkt_of_draw
                 (fst (gauss_draws (Z.to_nat months) (legacy_seeding 42))))
              (map smb_of_draw
                 (fst (gauss_draws (Z.to_nat months)
                         (snd (gauss_draws (Z.to_nat months) (legacy_seeding 42)))))))
         (map hml_of_draw
            (fst (gauss_draws (Z.to_nat months)
                    (snd (gauss_draws (Z.to_nat months)
                            (snd (gauss_draws (Z.to_nat months) (legacy_seeding 42)))))))),
     snd (gauss_draws (3 * Z.to_nat months) (legacy_seeding 42))).
Proof.
  unfold seeded_observations. rewrite gauss_draws_blocks.
  by rewrite !legacy_normal_fill_draws.
Qed.

(** The columns of a frame built from an index and three arrays of its
    length. *)
Lemma zip_columns (dates : list Timestamp) (mkt smb hml : list float) :
  length mkt = length dates -> length smb = length dates -> length hml = length dates ->
  map fst (zip dates (zip (zip mkt smb) hml)) = dates
  /\ values (col_Mkt_RF (zip dates (zip (zip mkt smb) hml))) = mkt
  /\ values (col_SMB (zip dates (zip (zip mkt smb) hml))) = smb
  /\ values (col_HML (zip dates (zip (zip mkt smb) hml))) = hml.
Proof.
  revert mkt smb hml.
  induction dates as [|d dates IH]; intros [|m mkt] [|sm smb] [|h hml] H1 H2 H3;
    try discriminate; [done|].
  destruct (IH mkt smb hml) as (I0 & I1 & I2 & I3);
    [by inversion H1|by inversion H2|by inversion H3|].
  unfold values in *. simpl. by rewrite I0, I1, I2, I3.
Qed.

End StreamFacts.

Section Layout.

Context {G : BitGenerator} {D : DatetimeIndex}.




End Layout.

(** ** The simulator, draw by draw *)

Section Draws.

Context {G : BitGenerator} {D : DatetimeIndex} {L : LeastSquares}.

Lemma systematic_app (P : Params) (F1 F2 : DataFrame) :
  systematic P (F1 ++ F2) = systematic P F1 ++ systematic P F2.
Proof.
  induction F1 as [|[t o] F1 IH]; [reflexivity|].
  cbn [app]. rewrite !systematic_cons, IH. reflexivity.
Qed.

Lemma map_lookup_Some {A B : Type} (f : A -> B) (l : list A) (i : nat) (x : A) :
  l !! i = Some x -> map f l !! i = Some (f x).
Proof.
  revert i. induction l as [|y l IH]; intros [|i] Hi; try discriminate; simpl in *.
  - by inversion Hi.
  - by apply IH.
Qed.

(** X7: the closed form of a call: it leaves the generator exactly
    [len(factors)] draws further (also when the noise is 0), and the
    return of period [i] is the systematic value of row [i] plus
    [0.0 + noise * g], where [g] is draw [i] from the state at the call. *)
Theorem fama_french_model_values (P : Params) (F : DataFrame) (s : rng_state) :
  scale_ok (noise P) = true ->
  exists r : Series,
    fama_french_model P F s = (Ok r, snd (gauss_draws (length F) s))
    /\ length r = length F
    /\ forall (i : nat) (t : Timestamp) (o : Observation) (g : float),
         F !! i = Some (t, o) ->
         fst (gauss_draws (length F) s) !! i = Some g ->
         r !! i = Some (t, F64.add (model_value P o) (scaled (F64.of_Z 0) (noise P) g)).
Proof.
  intros Hs. eexists. rewrite fama_french_model_ok by done.
  rewrite legacy_normal_fill_draws. cbn [fst snd].
  split; [reflexivity|]. split.
  - rewrite length_zip_with, systematic_length, length_map, gauss_draws_length. lia.
  - intros i t o g HF Hg.
    apply zip_with_lookup_draw; [by apply systematic_lookup|by apply map_lookup_Some].
Qed.

(** X8: simulating a frame in two parts, one call after the other, gives
    the returns of one call on the whole frame, and the same generator
    state. *)
Theorem fama_french_model_app (P : Params) (F1 F2 : DataFrame) (s : rng_state) :
  scale_ok (noise P) = true ->
  exists (r1 r2 : Series) (s1 s2 : rng_state),
    fama_french_model P F1 s = (Ok r1, s1)
    /\ fama_french_model P F2 s1 = (Ok r2, s2)
    /\ fama_french_model P (F1 ++ F2) s = (Ok (r1 ++ r2), s2).
Proof.
  intros Hs. eexists _, _, _, _.
  split; [by apply fama_french_model_ok|].
  split; [by apply fama_french_model_ok|].
  rewrite fama_french_model_ok, length_app, legacy_normal_fill_app, systematic_app by done.
  cbn [fst snd]. f_equal. f_equal.
  apply zip_with_app. by rewrite systematic_length, legacy_normal_fill_length.
Qed.

End Draws.

(** ** A page run, draw by draw *)

Section PageStream.

Context {G : BitGenerator} {D : DatetimeIndex} {L : LeastSquares}.

Lemma gauss_draws_four (n : nat) (s : rng_state) :
  gauss_draws (4 * n) s
  = (fst (gauss_draws (3 * n) s) ++ fst (gauss_draws n (snd (gauss_draws (3 * n) s))),
     snd (gauss_draws n (snd (gauss_draws (3 * n) s)))).
Proof.
  replace (4 * n)%nat with (3 * n + n)%nat by lia. apply gauss_draws_app.
Qed.

Lemma simulated_returns_ok (st : session_state) (t : Timestamp) (s : rng_state)
    (P : Params) :
  date_range_periods D -> read_params st = Ok P -> scale_ok (noise P) = true ->
  exists r : Series,
    simulated_returns st t s = (Ok r, snd (gauss_draws 240 (legacy_seeding 42)))
    /\ length r = 60%nat
    /\ index r = date_range_month_end t 60.
Proof.
  intros HD HP Hs. eexists.
  rewrite simulated_returns_eq, HP, fama_french_model_ok by done.
  pose proof (generated_frames t t HD) as (_ & Hlen). rewrite Hlen.
  rewrite seeded_observations_draws, !legacy_normal_fill_draws. cbn [fst snd].
  change (Z.to_nat 60) with 60%nat. change 240%nat with (4 * 60)%nat.
  rewrite gauss_draws_four. cbn [snd].
  split; [reflexivity|].
  assert (Hd : length (date_range_month_end t 60) = 60%nat) by apply (HD t 60).
  split.
  - rewrite length_zip_with, systematic_length, length_map, gauss_draws_length.
    rewrite !length_zip_with, !length_map, !gauss_draws_length, Hd. reflexivity.
  - rewrite zip_with_draw_index, systematic_index.
    + apply zip_columns; by rewrite length_map, gauss_draws_length.
    + rewrite systematic_length, length_map, gauss_draws_length.
      rewrite !length_zip_with, !length_map, !gauss_draws_length, Hd. reflexivity.
Qed.


End PageStream.

Section ClosedForm.

Context {G : BitGenerator} {D : DatetimeIndex}.

Lemma four_blocks_lookup {A : Type} (b1 b2 b3 b4 : list A) (n i : nat) :
  length b1 = n -> length b2 = n -> length b3 = n -> (i < n)%nat ->
  ((b1 ++ b2 ++ b3) ++ b4) !! i = b1 !! i
  /\ ((b1 ++ b2 ++ b3) ++ b4) !! (n + i)%nat = b2 !! i
  /\ ((b1 ++ b2 ++ b3) ++ b4) !! (2 * n + i)%nat = b3 !! i
  /\ ((b1 ++ b2 ++ b3) ++ b4) !! (3 * n + i)%nat = b4 !! i.
Proof.
  intros L1 L2 L3 Hi. repeat split.
  - rewrite !lookup_app_l by (rewrite ?length_app; lia). done.
  - rewrite lookup_app_l by (rewrite !length_app; lia).
    rewrite lookup_app_r by lia. rewrite lookup_app_l by lia.
    f_equal. lia.
  - rewrite lookup_app_l by (rewrite !length_app; lia).
    rewrite lookup_app_r by lia. rewrite lookup_app_r by lia.
    f_equal. lia.
  - rewrite lookup_app_r by (rewrite !length_app; lia).
    f_equal. rewrite !length_app. lia.
Qed.

(** X9: the closed form of the simulation of a page run over the stream of
    the generator seeded with 42: with [g] the first 240 draws, the return
    of month [i] is the systematic value of the factors made of the draws
    [i], [60 + i] and [120 + i], plus [0.0 + noise * g[180 + i]], and the
    generator is left 240 draws after the seed. *)
Theorem page_run_closed_form
    (st : session_state) (t : Timestamp) (s : rng_state) (P : Params) :
  date_range_periods D -> read_params st = Ok P -> scale_ok (noise P) = true ->
  exists r : Series,
    simulated_returns st t s = (Ok r, snd (gauss_draws 240 (legacy_seeding 42)))
    /\ forall (i : nat) (d : Timestamp) (g1 g2 g3 g4 : float),
         (i < 60)%nat -> date_range_month_end t 60 !! i = Some d ->
         fst (gauss_draws 240 (legacy_seeding 42)) !! i = Some g1 ->
         fst (gauss_draws 240 (legacy_seeding 42)) !! (60 + i)%nat = Some g2 ->
         fst (gauss_draws 240 (legacy_seeding 42)) !! (120 + i)%nat = Some g3 ->
         fst (gauss_draws 240 (legacy_seeding 42)) !! (180 + i)%nat = Some g4 ->
         r !! i
         = Some (d, F64.add
                      (model_value P (mkt_of_draw g1, smb_of_draw g2, hml_of_draw g3))
                      (scaled (F64.of_Z 0) (noise P) g4)).
Proof.
  intros HD HP Hs. eexists.
  rewrite simulated_returns_eq, HP, fama_french_model_ok by done.
  pose proof (generated_frames t t HD) as (_ & Hlen). rewrite Hlen.
  rewrite seeded_observations_draws, !legacy_normal_fill_draws. cbn [fst snd].
  change (Z.to_nat 60) with 60%nat. change 240%nat with (4 * 60)%nat.
  rewrite gauss_draws_four, gauss_draws_blocks. cbn [fst snd].
  set (q1 := snd (gauss_draws 60 (legacy_seeding 42))).
  set (q2 := snd (gauss_draws 60 q1)).
  set (q3 := snd (gauss_draws 60 q2)).
  set (b1 := fst (gauss_draws 60 (legacy_seeding 42))).
  set (b2 := fst (gauss_draws 60 q1)).
  set (b3 := fst (gauss_draws 60 q2)).
  set (b4 := fst (gauss_draws 60 q3)).
  split; [reflexivity|].
  intros i d g1 g2 g3 g4 Hi Hd H1 H2 H3 H4.
  destruct (four_blocks_lookup b1 b2 b3 b4 60 i) as (E1 & E2 & E3 & E4);
    try apply gauss_draws_length; [done|].
  change (2 * 60 + i)%nat with (120 + i)%nat in E3.
  change (3 * 60 + i)%nat with (180 + i)%nat in E4.
  rewrite E1 in H1. rewrite E2 in H2. rewrite E3 in H3. rewrite E4 in H4.
  apply zip_with_lookup_draw; [apply systematic_lookup|by apply map_lookup_Some].
  apply lookup_zip_with_Some.
  exists d, (mkt_of_draw g1, smb_of_draw g2, hml_of_draw g3).
  split; [done|]. split; [done|].
  apply lookup_zip_with_Some. exists (mkt_of_draw g1, smb_of_draw g2), (hml_of_draw g3).
  split; [done|]. split; [|by apply map_lookup_Some].
  apply lookup_zip_with_Some. exists (mkt_of_draw g1), (smb_of_draw g2).
  split; [done|]. split; by apply map_lookup_Some.
Qed.

End ClosedForm.

(** ** Excess returns *)

Lemma sub_pzero (x : float) : F64.sub x (F64.of_Z 0) = x.
Proof. by destruct x as [[]|[]| |[] m e]. Qed.

(** X12: subtracting the risk-free rate before the call, and passing a rate
    of 0, is the call with the rate: the estimator sees the returns only
    through the excess returns. *)
Theorem run_regression_excess_returns {D : DatetimeIndex} {L : LeastSquares}
    (stock_returns : Series) (factors : DataFrame) (rf : float) :
  run_regression (sub_scalar stock_returns rf) factors (F64.of_Z 0)
  = run_regression stock_returns factors rf.
Proof.
  unfold run_regression. f_equal. unfold sub_scalar.
  induction stock_returns as [|[t x] r IH]; [reflexivity|].
  cbn [map]. by rewrite sub_pzero, IH.
Qed.

(** ** The further properties on concrete inputs *)



Lemma fama_french_model_values_witness :
  scale_ok (noise default_params) = true
  /\ exists r : @Series month_numbers,
       @fama_french_model cyclic_generator month_numbers default_params sample_frame 7
       = (Ok r, snd (@gauss_draws cyclic_generator (length sample_frame) 7))
       /\ length r = length sample_frame.
Proof.
  split; [reflexivity|].
  destruct (@fama_french_model_values cyclic_generator month_numbers default_params
              sample_frame 7 eq_refl) as (r & Hr & Hl & _).
  exists r. split; [exact Hr|exact Hl].
Defined.

Lemma fama_french_model_app_witness :
  scale_ok (noise default_params) = true
  /\ exists (r1 r2 : @Series month_numbers) (s1 s2 : Z),
       @fama_french_model cyclic_generator month_numbers default_params sample_frame 7
       = (Ok r1, s1)
       /\ @fama_french_model cyclic_generator month_numbers default_params (zero_frame 2) s1
          = (Ok r2, s2)
       /\ @fama_french_model cyclic_generator month_numbers default_params
            (sample_frame ++ zero_frame 2) 7
          = (Ok (r1 ++ r2), s2).
Proof.
  split; [reflexivity|].
  apply (@fama_french_model_app cyclic_generator month_numbers default_params
           sample_frame (zero_frame 2) 7).
  reflexivity.
Defined.


Lemma page_run_closed_form_witness :
  date_range_periods month_numbers
  /\ @read_params (reset_parameters ∅) = Ok default_params
  /\ scale_ok (noise default_params) = true
  /\ exists r : @Series month_numbers,
       @simulated_returns cyclic_generator month_numbers (reset_parameters ∅) 100 7
       = (Ok r, snd (@gauss_draws cyclic_generator 240 42)).
Proof.
  split; [exact month_numbers_periods|].
  assert (HP : @read_params (reset_parameters ∅) = Ok default_params) by reflexivity.
  split; [exact HP|]. split; [reflexivity|].
  destruct (@page_run_closed_form cyclic_generator month_numbers (reset_parameters ∅)
              100 7 default_params month_numbers_periods HP eq_refl) as (r & Hr & _).
  exists r. exact Hr.
Defined.

(** ** Refused and absorbed noise *)

(** A noise of -0.0, which compares equal to 0, and a noise of -0.01 are
    parameter sets, and on a frame of three rows the call raises
    [ValueError] for both and leaves the generator where it was: no
    sequence is returned. *)
Lemma fama_french_model_refused_noise :
  F64.eqb (noise negative_zero_noise) F64.pzero = true
  /\ F64.ltb (noise negative_noise) F64.pzero = true
  /\ length sample_frame = 3%nat
  /\ @fama_french_model cyclic_generator month_numbers negative_zero_noise sample_frame 7
     = (Raise ValueError, 7)
  /\ @fama_french_model cyclic_generator month_numbers negative_noise sample_frame 7
     = (Raise ValueError, 7).
Proof. vm_compute. repeat split; reflexivity. Qed.

(** A noise of 1e-20 is above zero, and on a frame of three rows two
    successive calls return the same three returns: the second call draws
    other values (the generator has moved on, and the three noise terms
    differ from the first three), but every one is lost when it is added
    to a systematic value some seventeen orders of magnitude larger. *)
Lemma fama_french_model_twice_absorbed :
  F64.ltb F64.pzero (noise tiny_noise) = true
  /\ length sample_frame = 3%nat
  /\ snd (@fama_french_model cyclic_generator month_numbers tiny_noise sample_frame 7) = 10
  /\ result_map length
       (fst (@fama_french_model cyclic_generator month_numbers tiny_noise sample_frame 7))
     = Ok 3%nat
  /\ fst (@fama_french_model cyclic_generator month_numbers tiny_noise sample_frame 7)
     = fst (@fama_french_model cyclic_generator month_numbers tiny_noise sample_frame 10)
  /\ fst (@legacy_normal_fill cyclic_generator 3 (F64.of_Z 0) (noise tiny_noise) 7)
     <> fst (@legacy_normal_fill cyclic_generator 3 (F64.of_Z 0) (noise tiny_noise) 10).
Proof. vm_compute. repeat split; try reflexivity. discriminate. Qed.

(** ** The estimator on a design that is not finite *)

(** A factor of [-inf] under a finite maximum passes the test on the
    maxima and makes the fit raise [LinAlgError]. *)
Lemma run_regression_negative_infinity :
  @run_regression month_numbers null_kernel sample_returns
    [(1, (S754_infinity true, F64.pzero, F64.pzero));
     (2, (F64.dec 1 100, F64.dec 1 100, F64.pzero));
     (3, (F64.dec 2 100, F64.pzero, F64.dec 1 100))] (F64.dec 2 100)
  = Raise LinAlgError.
Proof. reflexivity. Qed.

(** ** Presets, sliders and the page run *)

Lemma preset_covers_sliders (st : session_state) :
  Forall (fun p : session_state -> session_state => p st ∪ slider_defaults = p st) presets.
Proof. unfold presets. repeat constructor; apply six_writes_cover. Qed.

(** X11: what a script run makes of a preset, sliders included.  After
    Default and after Lab 1, whatever the state before, every slider
    accepts its value and the run simulates 60 returns over the date range
    of the factors.  After Lab 2 and after Lab 3 the run ends at the HML
    slider, which refuses the [hml_beta] the preset wrote: nothing is
    generated or simulated and the generator is left as it was. *)
Theorem presets_then_page {G : BitGenerator} {D : DatetimeIndex}
    (st : session_state) (t : Timestamp) (s : rng_state) :
  date_range_periods D ->
  (exists (r : Series) (s' : rng_state),
     page_simulation (reset_parameters st) t s = (Ran (Ok r), s')
     /\ length r = 60%nat /\ index r = date_range_month_end t 60)
  /\ (exists (r : Series) (s' : rng_state),
        page_simulation (set_lab1_parameters st) t s = (Ran (Ok r), s')
        /\ length r = 60%nat /\ index r = date_range_month_end t 60)
  /\ page_simulation (set_lab2_parameters st) t s = (SliderRefused "hml_beta", s)
  /\ page_simulation (set_lab3_parameters st) t s = (SliderRefused "hml_beta", s).
Proof.
  intros HD.
  pose proof (presets_out_of_range st) as Hout.
  destruct Hout as (O0 & O1 & O2 & O3).
  pose proof (preset_covers_sliders st) as Hcov. unfold presets in Hcov.
  inversion Hcov as [|? ? C0 Hcov1]; subst.
  inversion Hcov1 as [|? ? C1 _]; subst.
  unfold page_simulation, sidebar. rewrite O0, O1, O2, O3, C0, C1.
  assert (Hgo : forall (st' : session_state) (P : Params),
            read_params st' = Ok P -> scale_ok (noise P) = true ->
            exists (r : Series) (s' : rng_state),
              (let '(r0, s0) := simulated_returns st' t s in (Ran r0, s0)) = (Ran (Ok r), s')
              /\ length r = 60%nat /\ index r = date_range_month_end t 60).
  { intros st' P HP Hs.
    destruct (simulated_returns_ok st' t s P HD HP Hs) as (r & Hr & Hl & Hi).
    exists r, (snd (gauss_draws 240 (legacy_seeding 42))). rewrite Hr.
    split; [reflexivity|]. split; [exact Hl|exact Hi]. }
  split; [|split; [|done]].
  - eapply Hgo; [apply six_writes_read_params|vm_compute; reflexivity].
  - eapply Hgo; [apply six_writes_read_params|vm_compute; reflexivity].
Qed.

Lemma presets_then_page_witness :
  date_range_periods month_numbers
  /\ (exists (r : @Series month_numbers) (s' : Z),
        @page_simulation cyclic_generator month_numbers (reset_parameters ∅) 100 7
        = (Ran (Ok r), s')
        /\ length r = 60%nat)
  /\ @page_simulation cyclic_generator month_numbers (set_lab2_parameters ∅) 100 7
     = (SliderRefused "hml_beta", 7).
Proof.
  split; [exact month_numbers_periods|].
  pose proof (@presets_then_page cyclic_generator month_numbers ∅ 100 7
                month_numbers_periods) as ((r & s' & Hr & Hl & _) & _ & H2 & _).
  split; [|exact H2].
  exists r, s'. split; [exact Hr|exact Hl].
Defined.
